(** * Review analyzer server: a shallow embedding of [server.py]

    The WSGI application [ReviewAnalyzerServer.__call__] is embedded as the
    function [call].  Python strings are Rocq strings, the in-memory list
    [self.reviews] is threaded explicitly through a state-and-exception
    monad, and the library functions the handler calls ([parse_qs],
    [datetime.strptime], [int], [bytes.decode], the VADER scorer) are the
    methods of the interface [Externals]. *)

From Stdlib Require Import Ascii String QArith.
From stdpp Require Import gmap strings list sorting pretty.

Global Close Scope Q_scope.
Local Open Scope string_scope.

(** ** Exceptions and results *)

(** The Python exceptions that the handler can meet.  [JSONDecodeError] is
    kept apart because the POST branch has a handler of its own for it. *)
Inductive exn :=
| KeyError (key : string)
| IndexError (msg : string)
| ValueError (msg : string)
| UnicodeDecodeError (msg : string)
| OverflowError (msg : string)
| JSONDecodeError (msg : string).

(** [str(ex)].  For a [KeyError] it is the [repr] of the key; the keys the
    handler looks up are literals without quotes or escapes. *)
Definition str (ex : exn) : string :=
  match ex with
  | KeyError key => "'" ++ key ++ "'"
  | IndexError msg | ValueError msg | UnicodeDecodeError msg
  | OverflowError msg | JSONDecodeError msg => msg
  end.

Inductive result (A : Type) :=
| Ok (a : A)
| Raise (ex : exn).
Arguments Ok {A} a.
Arguments Raise {A} ex.

Global Instance result_ret : MRet result := @Ok.
Global Instance result_bind : MBind result := λ A B f m,
  match m with
  | Ok a => f a
  | Raise ex => Raise ex
  end.

(** A list comprehension whose condition may raise: elements are tested
    from left to right and the first exception aborts the comprehension. *)
Fixpoint filter_result {A} (p : A → result bool) (l : list A) : result (list A) :=
  match l with
  | [] => Ok []
  | x :: l' =>
      b ← p x;
      kept ← filter_result p l';
      Ok (if b : bool then x :: kept else kept)
  end.

(** ** Data model *)

(** A review is a dict with the four string fields of the data set. *)
Record review := {
  ReviewId : string;
  Location : string;
  Timestamp : string;
  ReviewBody : string
}.

(** The dict returned by [sia.polarity_scores]; the scores are finite
    floats, represented by the rationals they denote. *)
Record sentiment := {
  neg : Q;
  neu : Q;
  pos : Q;
  compound : Q
}.

(** An element of [updated_reviews]. *)
Record scored_review := {
  scored : review;
  scored_sentiment : sentiment
}.

(** A naive [datetime] at the resolution of seconds, which is all that
    [strptime] with the two formats of the handler can produce and all that
    [strftime] with [TIMESTAMP_FORMAT] prints. *)
Record datetime := {
  year : Z;
  month : Z;
  day : Z;
  hour : Z;
  minute : Z;
  second : Z
}.

Definition lex (c1 c2 : comparison) : comparison :=
  match c1 with
  | Eq => c2
  | _ => c1
  end.

Definition datetime_compare (a b : datetime) : comparison :=
  lex (year a ?= year b)%Z
 (lex (month a ?= month b)%Z
 (lex (day a ?= day b)%Z
 (lex (hour a ?= hour b)%Z
 (lex (minute a ?= minute b)%Z
      (second a ?= second b)%Z)))).

(** [a <= b] on datetimes. *)
Definition datetime_le (a b : datetime) : bool :=
  match datetime_compare a b with
  | Gt => false
  | _ => true
  end.

(** [a >= b] on datetimes. *)
Definition datetime_ge (a b : datetime) : bool := datetime_le b a.

Definition TIMESTAMP_FORMAT : string := "%Y-%m-%d %H:%M:%S".

Definition ALLOWED_LOCATIONS : gset string :=
  list_to_set [
    "Albuquerque, New Mexico";
    "Carlsbad, California";
    "Chula Vista, California";
    "Colorado Springs, Colorado";
    "Denver, Colorado";
    "El Cajon, California";
    "El Paso, Texas";
    "Escondido, California";
    "Fresno, California";
    "La Mesa, California";
    "Las Vegas, Nevada";
    "Los Angeles, California";
    "Oceanside, California";
    "Phoenix, Arizona";
    "Sacramento, California";
    "Salt Lake City, Utah";
    "Salt Lake City, Utah";
    "San Diego, California";
    "Tucson, Arizona"
  ].

(** ** JSON values and responses *)

#[local] Unset Elimination Schemes.
Inductive json :=
| JString (s : string)
| JNumber (q : Q)
| JArray (items : list json)
| JObject (fields : list (string * json)).
#[local] Set Elimination Schemes.

(** The bytes [json.dumps(obj, indent=...).encode("utf-8")], kept as the
    value that is serialised together with the [indent] argument. *)
Record body_bytes := json_dumps {
  dumps_indent : option nat;
  dumps_obj : json
}.

(** What the handler hands to the server: the status line given to
    [start_response] and the body it returns.  The header list (a constant
    content type, and on the 200 path the length of the body) is left out. *)
Record response := {
  status : string;
  body : body_bytes
}.

Definition error_response (st msg : string) : response :=
  {| status := st; body := json_dumps None (JObject [("error", JString msg)]) |}.

Definition review_json (r : review) : json :=
  JObject [("ReviewId", JString (ReviewId r));
           ("ReviewBody", JString (ReviewBody r));
           ("Location", JString (Location r));
           ("Timestamp", JString (Timestamp r))].

Definition sentiment_json (s : sentiment) : json :=
  JObject [("neg", JNumber (neg s));
           ("neu", JNumber (neu s));
           ("pos", JNumber (pos s));
           ("compound", JNumber (compound s))].

Definition scored_json (x : scored_review) : json :=
  JObject [("ReviewId", JString (ReviewId (scored x)));
           ("Location", JString (Location (scored x)));
           ("Timestamp", JString (Timestamp (scored x)));
           ("ReviewBody", JString (ReviewBody (scored x)));
           ("sentiment", sentiment_json (scored_sentiment x))].

(** [k in obj] and [obj[k]] for a JSON object. *)
Fixpoint assoc (k : string) (fields : list (string * json)) : option json :=
  match fields with
  | [] => None
  | (k', v) :: fields' => if String.eqb k' k then Some v else assoc k fields'
  end.

Definition json_field (k : string) (j : json) : option json :=
  match j with
  | JObject fields => assoc k fields
  | _ => None
  end.

(** ** The handler's monad: [self.reviews] and exceptions *)

(** A computation reads and updates the list [self.reviews] and either
    returns or raises.  An exception does not undo the updates made
    before it was raised. *)
Definition M (A : Type) : Type := list review → result A * list review.

Global Instance M_ret : MRet M := λ A a s, (Ok a, s).
Global Instance M_bind : MBind M := λ A B f m s,
  match m s with
  | (Ok a, s') => f a s'
  | (Raise ex, s') => (Raise ex, s')
  end.

Definition lift {A} (r : result A) : M A := λ s, (r, s).

(** [self.reviews] *)
Definition self_reviews : M (list review) := λ s, (Ok s, s).

(** [self.reviews.append(r)] *)
Definition append (r : review) : M unit := λ s, (Ok (), (s ++ [r])%list).

(** [try: m except Exception as ex: h ex] *)
Definition try_except {A} (m : M A) (h : exn → M A) : M A := λ s,
  match m s with
  | (Ok a, s') => (Ok a, s')
  | (Raise ex, s') => h ex s'
  end.

(** ** Sorting *)

(** [x < y] on floats. *)
Definition Qlt_bool (x y : Q) : bool := negb (Qle_bool y x).

Section sorted.
Context {A : Type} (key : A → Q).

(** [list.sort] is a stable sort that compares keys with [<] only.  A
    stable sort has one possible result, so insertion sort stands for
    it: [x], which precedes [l] in the input, goes in front of the first
    element whose key is not smaller than its own. *)
Fixpoint insort (x : A) (l : list A) : list A :=
  match l with
  | [] => [x]
  | y :: l' => if Qlt_bool (key y) (key x) then y :: insort x l' else x :: l
  end.

Fixpoint stable_sort (l : list A) : list A :=
  match l with
  | [] => []
  | x :: l' => insort x (stable_sort l')
  end.

(** [sorted(l, key=key, reverse=descending)].  With [reverse=True] the
    list is reversed, sorted in ascending order and reversed again, which
    is how CPython keeps a descending sort stable. *)
Definition sorted (descending : bool) (l : list A) : list A :=
  if descending then reverse (stable_sort (reverse l)) else stable_sort l.
End sorted.

(** ** Requests *)

(** The WSGI [environ] dict, restricted to the keys the handler reads; a
    key may be missing.  [wsgi_input] holds the bytes of the request body
    that the stream [environ['wsgi.input']] delivers before end of file. *)
Record environ := {
  REQUEST_METHOD : option string;
  QUERY_STRING : option string;
  CONTENT_LENGTH : option string;
  wsgi_input : option string
}.

(** [environ[key]] *)
Definition environ_item {A} (field : option A) (key : string) : result A :=
  match field with
  | Some v => Ok v
  | None => Raise (KeyError key)
  end.

(** [sys.maxsize], the largest [Py_ssize_t], on a 64-bit build. *)
Definition sys_maxsize : Z := 9223372036854775807.

(** [stream.read(n)] on the buffered binary stream of the request body:
    a size that does not fit a [Py_ssize_t] and a negative size other than
    [-1] are refused, [-1] reads to the end of the stream, and any other
    size reads at most that many bytes. *)
Definition read (stream : string) (n : Z) : result string :=
  if ((sys_maxsize <? n) || (n <? - sys_maxsize - 1))%Z then
    Raise (OverflowError "cannot fit 'int' into an index-sized integer")
  else if (n <? -1)%Z then
    Raise (ValueError "read length must be non-negative or -1")
  else if (n =? -1)%Z then Ok stream
  else Ok (String.substring 0 (Z.to_nat n) stream).

(** The two values that differ from one request to the next:
    [str(uuid.uuid4())] and [datetime.now()]. *)
Record oracle := {
  uuid4 : string;
  now : datetime
}.

(** [d.get(k, [None])[0]] on the dict returned by [parse_qs]. *)
Definition first_value (d : gmap string (list string)) (k : string)
  : result (option string) :=
  match d !! k with
  | None => Ok None
  | Some [] => Raise (IndexError "list index out of range")
  | Some (v :: _) => Ok (Some v)
  end.

(** Truthiness of a value that is [None] or a string: [if v:] runs its
    block on [Some s] below and skips it on [None]. *)
Definition truthy (v : option string) : option string :=
  match v with
  | Some s => if String.eqb s "" then None else Some s
  | None => None
  end.

(** ** Formatting timestamps *)

Definition digit (n : Z) : ascii := ascii_of_nat (48 + Z.to_nat (n mod 10)).

Definition pad2 (n : Z) : string :=
  String (digit (n / 10)) (String (digit n) "").

Definition pad4 (n : Z) : string :=
  String (digit (n / 1000)) (String (digit (n / 100)) (pad2 n)).

(** [t.strftime("%Y-%m-%d %H:%M:%S")], with the zero-filled four-digit year
    of the documentation (C libraries differ only before the year 1000). *)
Definition strftime (t : datetime) : string :=
  pad4 (year t) ++ "-" ++ pad2 (month t) ++ "-" ++ pad2 (day t) ++ " " ++
  pad2 (hour t) ++ ":" ++ pad2 (minute t) ++ ":" ++ pad2 (second t).

(** The ranges of the fields of a [datetime] that a running clock returns. *)
Definition valid_datetime (t : datetime) : Prop :=
  (1000 ≤ year t ≤ 9999 ∧ 1 ≤ month t ≤ 12 ∧ 1 ≤ day t ≤ 31 ∧
   0 ≤ hour t ≤ 23 ∧ 0 ≤ minute t ≤ 59 ∧ 0 ≤ second t ≤ 59)%Z.

Definition is_digit (c : ascii) : bool :=
  (48 <=? nat_of_ascii c)%nat && (nat_of_ascii c <=? 57)%nat.

(** The shape [YYYY-MM-DD HH:MM:SS]. *)
Definition is_timestamp_format (s : string) : bool :=
  match list_ascii_of_string s with
  | [y1; y2; y3; y4; d1; m1; m2; d2; a1; a2; sp; h1; h2; c1; n1; n2; c2; s1; s2] =>
      forallb is_digit [y1; y2; y3; y4; m1; m2; a1; a2; h1; h2; n1; n2; s1; s2]
      && bool_decide ([d1; d2; sp; c1; c2] = ["-"; "-"; " "; ":"; ":"]%char)
  | _ => false
  end.

(** ** The library functions the handler calls *)

Class Externals := {
  (** [urllib.parse.parse_qs] *)
  parse_qs : string → gmap string (list string);
  (** [sia.polarity_scores] *)
  polarity_scores : string → sentiment;
  (** [datetime.strptime(date_string, format)] *)
  strptime : string → string → result datetime;
  (** [int(s)] for a string [s] *)
  int : string → result Z;
  (** [b.decode(encoding)] *)
  decode : string → string → result string
}.

(** ** The application *)

Section app.
Context `{Externals}.

(** [self.analyze_sentiment] *)
Definition analyze_sentiment (review_body : string) : sentiment :=
  polarity_scores review_body.

Definition updated_review (r : review) : scored_review :=
  {| scored := r; scored_sentiment := analyze_sentiment (ReviewBody r) |}.

Definition not_allowed (location : string) : string :=
  "'" ++ location ++ "' is not an allowed location.".

(** The [if location:] block of the GET branch, from the allow-list test
    on; [inl] is the early return. *)
Definition by_location (location : option string) (filtered_reviews : list review)
  : response + list review :=
  match truthy location with
  | Some location =>
      if bool_decide (location ∈ ALLOWED_LOCATIONS)
      then inr (filter (λ r, Location r = location) filtered_reviews)
      else inl (error_response "400 Bad Request" (not_allowed location))
  | None => inr filtered_reviews
  end.

(** The [if start_date:] and [if end_date:] blocks; [cmp] is [>=] for the
    first and [<=] for the second. *)
Definition by_date (cmp : datetime → datetime → bool) (date : option string)
    (filtered_reviews : list review) : result (list review) :=
  match truthy date with
  | Some date =>
      date ← strptime date "%Y-%m-%d";
      filter_result
        (λ r, t ← strptime (Timestamp r) TIMESTAMP_FORMAT; Ok (cmp t date))
        filtered_reviews
  | None => Ok filtered_reviews
  end.

(** The GET branch. *)
Definition do_GET (env : environ) : M response :=
  qs ← lift (environ_item (QUERY_STRING env) "QUERY_STRING");
  let query := parse_qs qs in
  location ← lift (first_value query "location");
  start_date ← lift (first_value query "start_date");
  end_date ← lift (first_value query "end_date");
  filtered_reviews ← self_reviews;
  match by_location location filtered_reviews with
  | inl bad_request => mret bad_request
  | inr filtered_reviews =>
      filtered_reviews ← lift (by_date datetime_ge start_date filtered_reviews);
      filtered_reviews ← lift (by_date datetime_le end_date filtered_reviews);
      let updated_reviews := updated_review <$> filtered_reviews in
      let reviews :=
        sorted (λ x, compound (scored_sentiment x)) true updated_reviews in
      mret {| status := "200 OK";
              body := json_dumps (Some 2) (JArray (scored_json <$> reviews)) |}
  end.

(** [int(environ.get('CONTENT_LENGTH', 0))] *)
Definition content_length (env : environ) : result Z :=
  match CONTENT_LENGTH env with
  | Some s => int s
  | None => Ok 0%Z
  end.

(** The body of the [try] of the POST branch. *)
Definition create_review (env : environ) (o : oracle) : M response :=
  content_length ← lift (content_length env);
  stream ← lift (environ_item (wsgi_input env) "wsgi.input");
  bytes ← lift (read stream content_length);
  body ← lift (decode bytes "utf-8");
  let data := parse_qs body in
  location ← lift (first_value data "Location");
  review_body ← lift (first_value data "ReviewBody");
  match truthy location, truthy review_body with
  | Some location, Some review_body =>
      if bool_decide (location ∈ ALLOWED_LOCATIONS) then
        let new_review := {| ReviewId := uuid4 o;
                             ReviewBody := review_body;
                             Location := location;
                             Timestamp := strftime (now o) |} in
        _ ← append new_review;
        mret {| status := "201 Created";
                body := json_dumps (Some 2) (review_json new_review) |}
      else
        mret (error_response "400 Bad Request" (not_allowed location))
  | _, _ =>
      mret (error_response "400 Bad Request"
              "Both 'Location' and 'ReviewBody' are required.")
  end.

(** The POST branch: the [try] with its two handlers. *)
Definition do_POST (env : environ) (o : oracle) : M response :=
  try_except (create_review env o) (λ ex,
    match ex with
    | JSONDecodeError _ =>
        mret (error_response "400 Bad Request" "Invalid JSON format.")
    | _ => mret (error_response "400 Bad Request" (str ex))
    end).

(** [ReviewAnalyzerServer.__call__]: one request against the current
    [self.reviews]; the result is the response and the list afterwards. *)
Definition call (env : environ) (o : oracle) (reviews : list review)
  : response * list review :=
  let handler : M response :=
    try_except
      (method ← lift (environ_item (REQUEST_METHOD env) "REQUEST_METHOD");
       if String.eqb method "GET" then do_GET env
       else if String.eqb method "POST" then do_POST env o
       else mret (error_response "405 Method Not Allowed" "Method not allowed."))
      (λ ex, mret (error_response "500 Internal Server Error"
                     "Internal server error."))
  in
  match handler reviews with
  | (Ok resp, reviews') => (resp, reviews')
  | (Raise _, reviews') =>
      (error_response "500 Internal Server Error" "Internal server error.", reviews')
  end.
End app.

(** ** A reference implementation of the interface

    The theorems below hold for every implementation of [Externals].  To
    run the handler on concrete requests we implement the interface for
    requests written in ASCII, following CPython's [urllib.parse],
    [_strptime] and [int]; the scorer is a deterministic stand-in for
    VADER with a lexicon of two words. *)

(** [s.split(sep)] for a one-character separator. *)
Fixpoint split (sep : ascii) (s : string) : list string :=
  match s with
  | "" => [""]
  | String c s' =>
      if Ascii.eqb c sep then "" :: split sep s'
      else match split sep s' with
           | h :: t => String c h :: t
           | [] => [String c ""]
           end
  end.

(** [s.split(sep, 1)]: [None] stands for the one-element result. *)
Fixpoint split_once (sep : ascii) (s : string) : option (string * string) :=
  match s with
  | "" => None
  | String c s' =>
      if Ascii.eqb c sep then Some ("", s')
      else '(h, t) ← split_once sep s'; Some (String c h, t)
  end.

Definition hex_val (c : ascii) : option nat :=
  let n := nat_of_ascii c in
  if (48 <=? n)%nat && (n <=? 57)%nat then Some (n - 48)%nat
  else if (65 <=? n)%nat && (n <=? 70)%nat then Some (n - 55)%nat
  else if (97 <=? n)%nat && (n <=? 102)%nat then Some (n - 87)%nat
  else None.

(** [unquote(s.replace('+', ' '))] on bytes: a [%] followed by two
    hexadecimal digits is the byte they denote, any other [%] stands for
    itself.  (CPython then decodes the bytes as UTF-8, replacing invalid
    sequences; the result is the same whenever the bytes are valid UTF-8.) *)
Fixpoint unquote_plus (s : string) : string :=
  match s with
  | "" => ""
  | String c s' =>
      if Ascii.eqb c "+" then String " " (unquote_plus s')
      else if Ascii.eqb c "%" then
        match s' with
        | String h (String l _) =>
            match hex_val h, hex_val l with
            | Some x, Some y =>
                String (ascii_of_nat (16 * x + y)) (skip2 s')
            | _, _ => String c (unquote_plus s')
            end
        | _ => String c (unquote_plus s')
        end
      else String c (unquote_plus s')
  end
with skip2 (s : string) : string :=
  match s with
  | String _ (String _ s'') => unquote_plus s''
  | _ => ""
  end.

(** [parse_qsl(qs)] with its default arguments: fields are separated by
    [&], a field without [=] or with an empty value is dropped. *)
Definition parse_qsl (qs : string) : list (string * string) :=
  omap (λ name_value,
          '(name, value) ← split_once "=" name_value;
          if String.eqb value "" then None
          else Some (unquote_plus name, unquote_plus value))
       (split "&" qs).

(** [parse_qs(qs)]: the values of a name are collected in order. *)
Definition ref_parse_qs (qs : string) : gmap string (list string) :=
  foldl (λ parsed_result '(name, value),
           match parsed_result !! name with
           | Some values => <[name := (values ++ [value])%list]> parsed_result
           | None => <[name := [value]]> parsed_result
           end)
        ∅ (parse_qsl qs).

(** The stand-in scorer. *)
Definition ref_polarity_scores (text : string) : sentiment :=
  if String.prefix "good" text then {| neg := 0; neu := 1 # 2; pos := 1 # 2; compound := 1 # 2 |}
  else if String.prefix "bad" text then {| neg := 1 # 2; neu := 1 # 2; pos := 0; compound := - (1 # 2) |}
  else {| neg := 0; neu := 1; pos := 0; compound := 0 |}.

Definition digit_val (c : ascii) : option Z :=
  if is_digit c then Some (Z.of_nat (nat_of_ascii c) - 48)%Z else None.

(** The directive [%Y]: four digits. *)
Definition four_digits (s : string) : option (Z * string) :=
  match s with
  | String a (String b (String c (String d rest))) =>
      a ← digit_val a; b ← digit_val b; c ← digit_val c; d ← digit_val d;
      Some (1000 * a + 100 * b + 10 * c + d, rest)%Z
  | _ => None
  end.

(** A directive of one or two digits: the two-digit alternatives come
    first, they accept the number [10 * a + b] when [two a b] holds; the
    one-digit alternative accepts [a] when [one a] holds. *)
Definition one_or_two_digits (two : Z → Z → bool) (one : Z → bool) (s : string)
  : option (Z * string) :=
  match s with
  | String a rest =>
      a ← digit_val a;
      match rest with
      | String b rest' =>
          match digit_val b with
          | Some b => if two a b then Some (10 * a + b, rest')%Z
                      else if one a then Some (a, rest) else None
          | None => if one a then Some (a, rest) else None
          end
      | "" => if one a then Some (a, rest) else None
      end
  | "" => None
  end.

(** [%m]: [1[0-2]|0[1-9]|[1-9]] *)
Definition month_field : string → option (Z * string) :=
  one_or_two_digits (λ a b, (a =? 1) && (b <=? 2) || (a =? 0) && (1 <=? b))%Z
                    (λ a, 1 <=? a)%Z.

(** [%d]: [3[0-1]|[1-2]\d|0[1-9]|[1-9]| [1-9]] *)
Definition day_field (s : string) : option (Z * string) :=
  match s with
  | String " " (String a rest) =>
      a ← digit_val a; if (1 <=? a)%Z then Some (a, rest) else None
  | _ =>
      one_or_two_digits
        (λ a b, (a =? 3) && (b <=? 1) || (1 <=? a) && (a <=? 2) || (a =? 0) && (1 <=? b))%Z
        (λ a, 1 <=? a)%Z s
  end.

(** [%H]: [2[0-3]|[0-1]\d|\d] *)
Definition hour_field : string → option (Z * string) :=
  one_or_two_digits (λ a b, (a =? 2) && (b <=? 3) || (a <=? 1))%Z (λ _, true).

(** [%M]: [[0-5]\d|\d] *)
Definition minute_field : string → option (Z * string) :=
  one_or_two_digits (λ a _, a <=? 5)%Z (λ _, true).

(** [%S]: [6[0-1]|[0-5]\d|\d] *)
Definition second_field : string → option (Z * string) :=
  one_or_two_digits (λ a b, (a =? 6) && (b <=? 1) || (a <=? 5))%Z (λ _, true).

(** A literal character of the format. *)
Definition literal (c : ascii) (s : string) : option string :=
  match s with
  | String c' rest => if Ascii.eqb c c' then Some rest else None
  | "" => None
  end.

(** The ASCII characters that [\s] matches in a pattern on [str]. *)
Definition is_space (c : ascii) : bool :=
  let n := nat_of_ascii c in
  (n =? 32)%nat || (9 <=? n)%nat && (n <=? 13)%nat
  || (28 <=? n)%nat && (n <=? 31)%nat.

Fixpoint skip_spaces (s : string) : string :=
  match s with
  | String c rest => if is_space c then skip_spaces rest else s
  | "" => ""
  end.

(** A blank of the format stands for one or more white-space characters. *)
Definition spaces (s : string) : option string :=
  match s with
  | String c rest => if is_space c then Some (skip_spaces rest) else None
  | "" => None
  end.

Definition is_leap (y : Z) : bool :=
  ((y mod 4 =? 0) && negb (y mod 100 =? 0) || (y mod 400 =? 0))%Z.

Definition days_in_month (y m : Z) : Z :=
  (if m =? 2 then (if is_leap y then 29 else 28)
   else if (m =? 4) || (m =? 6) || (m =? 9) || (m =? 11) then 30
   else 31)%Z.

(** The constructor [datetime(...)] called on the parsed fields. *)
Definition make_datetime (y m d hh mm ss : Z) : result datetime :=
  if (y <? 1)%Z then Raise (ValueError ("year " ++ pretty y ++ " is out of range"))
  else if (days_in_month y m <? d)%Z then
    Raise (ValueError "day is out of range for month")
  else if (59 <? ss)%Z then Raise (ValueError "second must be in 0..59")
  else Ok {| year := y; month := m; day := d;
             hour := hh; minute := mm; second := ss |}.

Definition no_match (data_string format : string) : exn :=
  ValueError ("time data '" ++ data_string ++ "' does not match format '"
              ++ format ++ "'").

Definition finish (rest : string) (t : result datetime) : result datetime :=
  if String.eqb rest "" then t
  else Raise (ValueError ("unconverted data remains: " ++ rest)).

(** [datetime.strptime] for the two formats of the handler. *)
Definition ref_strptime (data_string format : string) : result datetime :=
  if String.eqb format "%Y-%m-%d" then
    match ('(y, s) ← four_digits data_string; s ← literal "-" s;
           '(m, s) ← month_field s; s ← literal "-" s;
           '(d, s) ← day_field s;
           Some (finish s (make_datetime y m d 0 0 0))) with
    | Some r => r
    | None => Raise (no_match data_string format)
    end
  else if String.eqb format TIMESTAMP_FORMAT then
    match ('(y, s) ← four_digits data_string; s ← literal "-" s;
           '(m, s) ← month_field s; s ← literal "-" s;
           '(d, s) ← day_field s; s ← spaces s;
           '(hh, s) ← hour_field s; s ← literal ":" s;
           '(mm, s) ← minute_field s; s ← literal ":" s;
           '(ss, s) ← second_field s;
           Some (finish s (make_datetime y m d hh mm ss))) with
    | Some r => r
    | None => Raise (no_match data_string format)
    end
  else Raise (ValueError ("unsupported format '" ++ format ++ "'")).

Fixpoint digits_val (acc : Z) (s : string) : option Z :=
  match s with
  | "" => Some acc
  | String c rest => d ← digit_val c; digits_val (10 * acc + d)%Z rest
  end.

(** [int(s)] for an optional sign followed by decimal digits, which is
    what a client sends as content length.  (CPython also accepts white
    space around the number and underscores between digits.) *)
Definition ref_int (s : string) : result Z :=
  let invalid :=
    Raise (ValueError ("invalid literal for int() with base 10: '" ++ s ++ "'")) in
  let unsigned (digits : string) : option Z :=
    if String.eqb digits "" then None else digits_val 0 digits in
  match s with
  | String "-" digits => from_option (λ n, Ok (- n)%Z) invalid (unsigned digits)
  | String "+" digits => from_option Ok invalid (unsigned digits)
  | _ => from_option Ok invalid (unsigned s)
  end.

(** [b.decode(encoding)] for a body of ASCII bytes, which decodes to
    itself.  A body with a byte above 127 is outside what this instance
    covers (it would need the UTF-8 decoder): it is reported at the
    position of that byte. *)
Definition ref_decode (b encoding : string) : result string :=
  match list_find (λ c, 128 ≤ nat_of_ascii c)%nat (list_ascii_of_string b) with
  | None => Ok b
  | Some (i, _) =>
      Raise (UnicodeDecodeError
               ("'" ++ encoding ++ "' codec can't decode byte in position "
                ++ pretty i))
  end.

Global Instance reference : Externals := {
  parse_qs := ref_parse_qs;
  polarity_scores := ref_polarity_scores;
  strptime := ref_strptime;
  int := ref_int;
  decode := ref_decode
}.

(** * Vocabulary of the statements *)

(** ** Order and ties *)

Section order.
Context {A : Type} (key : A → Q).

(** Ascending and descending order of the keys. *)
Definition ascending : relation A := λ x y, (key x <= key y)%Q.
Definition descending : relation A := λ x y, (key y <= key x)%Q.

(** The elements of [l] whose key equals [c], in the order of [l]. *)
Definition with_key (c : Q) (l : list A) : list A :=
  filter (λ x, Qeq_bool (key x) c) l.

End order.

(** ** Responses and parameters *)

Definition internal_server_error : response :=
  error_response "500 Internal Server Error" "Internal server error.".

Section vocabulary.
Context `{Externals}.

(** The key of the final sort. *)
Definition compound_of (x : scored_review) : Q := compound (scored_sentiment x).

(** The reviews that survive the filters, scored and sorted. *)
Definition ranked (filtered_reviews : list review) : list scored_review :=
  sorted compound_of true (updated_review <$> filtered_reviews).

(** The 200 response for the surviving reviews. *)
Definition ok_response (filtered_reviews : list review) : response :=
  {| status := "200 OK";
     body := json_dumps (Some 2) (JArray (scored_json <$> ranked filtered_reviews)) |}.

(** The 201 response for a new review. *)
Definition created (new_review : review) : response :=
  {| status := "201 Created";
     body := json_dumps (Some 2) (review_json new_review) |}.

(** What the GET branch answers once its three parameters are known. *)
Definition get_result (location start_date end_date : option string)
    (reviews : list review) : result response :=
  match by_location location reviews with
  | inl bad_request => Ok bad_request
  | inr filtered_reviews =>
      filtered_reviews ← by_date datetime_ge start_date filtered_reviews;
      filtered_reviews ← by_date datetime_le end_date filtered_reviews;
      Ok (ok_response filtered_reviews)
  end.

(** The three parameters of a GET request. *)
Definition get_params (env : environ)
  : result (option string * option string * option string) :=
  qs ← environ_item (QUERY_STRING env) "QUERY_STRING";
  location ← first_value (parse_qs qs) "location";
  start_date ← first_value (parse_qs qs) "start_date";
  end_date ← first_value (parse_qs qs) "end_date";
  Ok (location, start_date, end_date).

(** The bound that a date parameter stands for, if it stands for one. *)
Definition date_bound (date : option string) : result (option datetime) :=
  match truthy date with
  | Some date => d ← strptime date "%Y-%m-%d"; Ok (Some d)
  | None => Ok None
  end.

(** A review passes the location criterion. *)
Definition at_location (location : option string) (r : review) : bool :=
  match truthy location with
  | Some l => bool_decide (Location r = l)
  | None => true
  end.

(** A review passes a date bound: its timestamp [t] satisfies [cmp t d]. *)
Definition in_bound (cmp : datetime → datetime → bool) (bound : option datetime)
    (r : review) : bool :=
  match bound with
  | Some d =>
      match strptime (Timestamp r) TIMESTAMP_FORMAT with
      | Ok t => cmp t d
      | Raise _ => false
      end
  | None => true
  end.

(** A review passes the three criteria. *)
Definition survives (location : option string) (lo hi : option datetime)
    (r : review) : bool :=
  at_location location r && in_bound datetime_ge lo r && in_bound datetime_le hi r.

Definition parseable (r : review) : Prop :=
  ∃ t, strptime (Timestamp r) TIMESTAMP_FORMAT = Ok t.

End vocabulary.

(** The value of a query parameter as the [if] tests of the GET branch see
    it: [None] when the parameter is missing and when its value is empty. *)
Definition criterion `{Externals} (qs key : string) : result (option string) :=
  v ← first_value (parse_qs qs) key; Ok (truthy v).

(** The two fields of a POST request, as read from its body. *)
Definition post_params `{Externals} (env : environ)
  : result (option string * option string) :=
  n ← content_length env;
  stream ← environ_item (wsgi_input env) "wsgi.input";
  bytes ← read stream n;
  body ← decode bytes "utf-8";
  location ← first_value (parse_qs body) "Location";
  review_body ← first_value (parse_qs body) "ReviewBody";
  Ok (location, review_body).

(** The record a POST request creates. *)
Definition new_review_of (o : oracle) (location review_body : string) : review :=
  {| ReviewId := uuid4 o; ReviewBody := review_body;
     Location := location; Timestamp := strftime (now o) |}.

(** ** Sample requests *)

Definition get_request (qs : string) : environ :=
  {| REQUEST_METHOD := Some "GET"; QUERY_STRING := Some qs;
     CONTENT_LENGTH := None; wsgi_input := Some "" |}.

Definition post_request (content_length body : string) : environ :=
  {| REQUEST_METHOD := Some "POST"; QUERY_STRING := Some "";
     CONTENT_LENGTH := Some content_length; wsgi_input := Some body |}.

Definition sample_reviews : list review :=
  [ {| ReviewId := "id-1"; Location := "Denver, Colorado";
       Timestamp := "2021-01-05 10:00:00"; ReviewBody := "bad coffee" |};
    {| ReviewId := "id-2"; Location := "Denver, Colorado";
       Timestamp := "2021-01-06 00:00:00"; ReviewBody := "good service" |};
    {| ReviewId := "id-3"; Location := "El Paso, Texas";
       Timestamp := "2021-01-07 08:30:00"; ReviewBody := "good food" |};
    {| ReviewId := "id-4"; Location := "Denver, Colorado";
       Timestamp := "2021-01-08 23:59:59"; ReviewBody := "it was fine" |} ].

Definition sample_oracle : oracle :=
  {| uuid4 := "0b0e4f5c-6d1a-4c3e-9f2b-7a8d9e0f1a2b";
     now := {| year := 2024; month := 3; day := 9;
               hour := 7; minute := 5; second := 0 |} |}.

(** ** Start-up and the sequence of requests *)

(** [ReviewAnalyzerServer.__init__]: [records] is the outcome of
    [pd.read_csv('data/reviews.csv').to_dict('records')]; when it raises,
    the error is logged and the list starts empty. *)
Definition init (records : result (list review)) : list review :=
  match records with
  | Ok reviews => reviews
  | Raise _ => []
  end.

(** The server of the main block: [httpd.serve_forever()] hands the
    requests to the one application object, one after the other.  The result
    is the list of the responses and [self.reviews] after the last one. *)
Fixpoint serve `{Externals} (requests : list (environ * oracle))
    (reviews : list review) : list response * list review :=
  match requests with
  | [] => ([], reviews)
  | (env, o) :: requests' =>
      let '(resp, reviews') := call env o reviews in
      let '(resps, reviews'') := serve requests' reviews' in
      (resp :: resps, reviews'')
  end.

(** The number of 201 responses. *)
Definition count_created (resps : list response) : nat :=
  length (filter (λ resp, status resp = "201 Created") resps).

(** What the POST branch checks or sets on the reviews it stores. *)
Definition well_formed (r : review) : Prop :=
  Location r ∈ ALLOWED_LOCATIONS
  ∧ ReviewBody r ≠ ""
  ∧ is_timestamp_format (Timestamp r) = true.

(** [a <= b] on datetimes, spelled out field by field. *)
Definition datetime_before (a b : datetime) : Prop :=
  (year a < year b ∨ year a = year b ∧
   (month a < month b ∨ month a = month b ∧
    (day a < day b ∨ day a = day b ∧
     (hour a < hour b ∨ hour a = hour b ∧
      (minute a < minute b ∨ minute a = minute b ∧
       second a ≤ second b)))))%Z.

(** A [datetime] of the calendar: the fields are in range and the day
    exists in its month. *)
Definition calendar_date (t : datetime) : Prop :=
  valid_datetime t ∧ (day t ≤ days_in_month (year t) (month t))%Z.

(** * Properties *)

(** ** Sorting *)

Lemma Qlt_bool_lt x y : Qlt_bool x y = true ↔ (x < y)%Q.
Proof.
  unfold Qlt_bool. rewrite negb_true_iff, <- not_true_iff_false, Qle_bool_iff.
  split; [apply Qnot_le_lt | apply Qlt_not_le].
Qed.

Lemma Qlt_bool_ge x y : Qlt_bool x y = false ↔ (y <= x)%Q.
Proof. unfold Qlt_bool. by rewrite negb_false_iff, Qle_bool_iff. Qed.

Section sorted_facts.
Context {A : Type} (key : A → Q).

Lemma insort_Permutation x l : insort key x l ≡ₚ x :: l.
Proof.
  induction l as [|y l IH]; simpl; [done|].
  destruct (Qlt_bool (key y) (key x)); [|done].
  rewrite IH. apply Permutation_swap.
Qed.

Lemma stable_sort_Permutation l : stable_sort key l ≡ₚ l.
Proof.
  induction l as [|x l IH]; simpl; [done|].
  by rewrite insort_Permutation, IH.
Qed.

Lemma sorted_Permutation d l : sorted key d l ≡ₚ l.
Proof.
  destruct d; simpl; [|apply stable_sort_Permutation].
  by rewrite reverse_Permutation, stable_sort_Permutation, reverse_Permutation.
Qed.

Lemma insort_ascending x l :
  StronglySorted (ascending key) l → StronglySorted (ascending key) (insort key x l).
Proof.
  induction 1 as [|y l Hl IH Hy]; simpl.
  - repeat constructor.
  - destruct (Qlt_bool (key y) (key x)) eqn:Hlt.
    + constructor; [done|].
      rewrite insort_Permutation. constructor; [|done].
      apply Qlt_bool_lt in Hlt. by apply Qlt_le_weak.
    + apply Qlt_bool_ge in Hlt.
      constructor; [by constructor|]. constructor; [done|].
      eapply Forall_impl; [exact Hy|]. intros z Hz.
      unfold ascending in *. by apply Qle_trans with (key y).
Qed.

Lemma stable_sort_ascending l : StronglySorted (ascending key) (stable_sort key l).
Proof.
  induction l; simpl; [constructor | by apply insort_ascending].
Qed.

Lemma reverse_ascending l :
  StronglySorted (ascending key) l → StronglySorted (descending key) (reverse l).
Proof.
  induction 1 as [|x l Hl IH Hx]; [constructor|].
  rewrite reverse_cons. apply StronglySorted_app; split_and!.
  - intros y z Hy ->%list_elem_of_singleton.
    rewrite elem_of_reverse in Hy. rewrite Forall_forall in Hx.
    exact (Hx y Hy).
  - done.
  - repeat constructor.
Qed.

Lemma sorted_descending l : StronglySorted (descending key) (sorted key true l).
Proof. apply reverse_ascending, stable_sort_ascending. Qed.

(** Insertion leaves the elements of equal key in their order: the new
    element, which comes first in the input, stays first among them. *)
Lemma with_key_insort c x l :
  with_key key c (insort key x l) = with_key key c (x :: l).
Proof.
  unfold with_key. induction l as [|y l IH]; simpl; [done|].
  destruct (Qlt_bool (key y) (key x)) eqn:Hlt; [|done].
  rewrite (filter_cons _ y), IH, !(filter_cons _ x), (filter_cons _ y).
  destruct (decide (Qeq_bool (key x) c)) as [Hx|Hx],
           (decide (Qeq_bool (key y) c)) as [Hy|Hy]; try done.
  apply Is_true_true, Qeq_bool_iff in Hx, Hy. apply Qlt_bool_lt in Hlt.
  rewrite Hx, Hy in Hlt. by apply Qlt_irrefl in Hlt.
Qed.

Lemma with_key_stable_sort c l : with_key key c (stable_sort key l) = with_key key c l.
Proof.
  induction l as [|x l IH]; simpl; [done|].
  rewrite with_key_insort. unfold with_key in *.
  by rewrite !(filter_cons _ x), IH.
Qed.

(** Stability of [sorted], in either direction. *)
Lemma with_key_sorted c d l : with_key key c (sorted key d l) = with_key key c l.
Proof.
  destruct d; simpl; [|apply with_key_stable_sort].
  unfold with_key. rewrite filter_reverse.
  fold (with_key key c (stable_sort key (reverse l))).
  rewrite with_key_stable_sort. unfold with_key.
  by rewrite filter_reverse, reverse_involutive.
Qed.

End sorted_facts.

(** ** Timestamps *)

Lemma is_digit_digit n : is_digit (digit n) = true.
Proof.
  unfold is_digit, digit.
  assert (0 ≤ n mod 10 < 10)%Z as Hn by (apply Z.mod_pos_bound; lia).
  rewrite nat_ascii_embedding by lia.
  apply andb_true_intro; split; apply Nat.leb_le; lia.
Qed.

Lemma strftime_format t : is_timestamp_format (strftime t) = true.
Proof.
  unfold is_timestamp_format, strftime, pad4, pad2.
  cbv [String.append list_ascii_of_string forallb].
  by rewrite !is_digit_digit.
Qed.

Lemma datetime_le_refl t : datetime_le t t = true.
Proof.
  unfold datetime_le, datetime_compare. by rewrite !Z.compare_refl.
Qed.

(** ** The handler, branch by branch *)

Section handler_facts.
Context `{Externals}.

Lemma do_GET_run env reviews :
  do_GET env reviews =
    ('(location, start_date, end_date) ← get_params env;
     get_result location start_date end_date reviews, reviews).
Proof.
  unfold do_GET, get_params, get_result, mbind, M_bind, result_bind, lift,
    self_reviews, mret, M_ret.
  destruct (environ_item _ _) as [qs|]; [|done].
  destruct (first_value _ "location") as [location|]; [|done].
  destruct (first_value _ "start_date") as [start_date|]; [|done].
  destruct (first_value _ "end_date") as [end_date|]; [|done].
  destruct (by_location _ _) as [|l0]; [done|].
  destruct (by_date datetime_ge _ _) as [l1|]; [|done].
  by destruct (by_date datetime_le _ _).
Qed.

Lemma call_GET env o reviews :
  REQUEST_METHOD env = Some "GET" →
  call env o reviews =
    match do_GET env reviews with
    | (Ok resp, reviews') => (resp, reviews')
    | (Raise _, reviews') => (internal_server_error, reviews')
    end.
Proof.
  intros Hm. unfold call, try_except, mbind, M_bind, lift. rewrite Hm. simpl.
  by destruct (do_GET env reviews) as [[]].
Qed.

Lemma call_GET_params env o reviews location start_date end_date :
  REQUEST_METHOD env = Some "GET" →
  get_params env = Ok (location, start_date, end_date) →
  call env o reviews =
    match get_result location start_date end_date reviews with
    | Ok resp => (resp, reviews)
    | Raise _ => (internal_server_error, reviews)
    end.
Proof.
  intros Hm Hp. rewrite call_GET, do_GET_run, Hp by done. simpl.
  by destruct (get_result _ _ _ _).
Qed.

Lemma get_params_Ok env qs location start_date end_date :
  QUERY_STRING env = Some qs →
  first_value (parse_qs qs) "location" = Ok location →
  first_value (parse_qs qs) "start_date" = Ok start_date →
  first_value (parse_qs qs) "end_date" = Ok end_date →
  get_params env = Ok (location, start_date, end_date).
Proof.
  intros Hq Hl Hs He. unfold get_params. rewrite Hq. simpl.
  rewrite Hl. simpl. rewrite Hs. simpl. by rewrite He.
Qed.

Lemma first_value_absent (d : gmap string (list string)) k :
  d !! k = None → first_value d k = Ok None.
Proof. unfold first_value. by intros ->. Qed.

Lemma call_POST env o reviews :
  REQUEST_METHOD env = Some "POST" →
  call env o reviews =
    match create_review env o reviews with
    | (Ok resp, reviews') => (resp, reviews')
    | (Raise ex, reviews') =>
        (error_response "400 Bad Request"
           match ex with
           | JSONDecodeError _ => "Invalid JSON format."
           | _ => str ex
           end, reviews')
    end.
Proof.
  intros Hm. unfold call, do_POST, try_except, mbind, M_bind, lift.
  rewrite Hm. simpl.
  destruct (create_review env o reviews) as [[resp|ex] reviews']; [done|].
  by destruct ex.
Qed.

(** The three ways the body of the POST branch can end: with an
    exception, with a 400 response, or with a new review appended. *)
Lemma create_review_cases env o reviews :
  (∃ ex, create_review env o reviews = (Raise ex, reviews)) ∨
  (∃ msg, create_review env o reviews
          = (Ok (error_response "400 Bad Request" msg), reviews)) ∨
  (∃ new_review,
      create_review env o reviews
      = (Ok (created new_review), (reviews ++ [new_review])%list)).
Proof.
  unfold create_review, mbind, M_bind, lift, append, mret, M_ret.
  destruct (content_length env) as [n|]; [|by eauto].
  destruct (environ_item _ _) as [stream|]; [|by eauto].
  destruct (read _ _) as [bytes|]; [|by eauto].
  destruct (decode _ _) as [body|]; [|by eauto].
  destruct (first_value _ "Location") as [location|]; [|by eauto].
  destruct (first_value _ "ReviewBody") as [review_body|]; [|by eauto].
  destruct (truthy location) as [l|]; [|by eauto].
  destruct (truthy review_body) as [b|]; [|by eauto].
  case_bool_decide; by eauto 6.
Qed.

End handler_facts.

(** ** Filtering *)

Lemma filter_result_Ok {A} (p : A → result bool) (q : A → bool) (l : list A) :
  (∀ x, x ∈ l → p x = Ok (q x)) →
  filter_result p l = Ok (filter q l).
Proof.
  induction l as [|x l IH]; intros Hp; simpl; [done|].
  rewrite (Hp x) by left. simpl.
  rewrite IH by (intros y Hy; apply Hp; by right). simpl.
  rewrite filter_cons. by destruct (q x).
Qed.

Lemma Forall_filter {A} (P Q : A → Prop) `{!∀ x, Decision (Q x)} (l : list A) :
  Forall P l → Forall P (filter Q l).
Proof.
  rewrite !Forall_forall. intros HP x [_ Hx]%list_elem_of_filter. by apply HP.
Qed.

Section filter_facts.
Context `{Externals}.

Lemma by_location_allowed location reviews :
  (∀ l, truthy location = Some l → l ∈ ALLOWED_LOCATIONS) →
  by_location location reviews = inr (filter (at_location location) reviews).
Proof.
  intros Hl. unfold by_location, at_location.
  destruct (truthy location) as [l|].
  - rewrite bool_decide_true by auto. f_equal.
    apply list_filter_iff. intros r. by rewrite bool_decide_spec.
  - f_equal. induction reviews as [|r l IH]; [done|].
    by rewrite filter_cons_True, <- IH.
Qed.

Lemma by_date_Ok cmp date bound reviews :
  date_bound date = Ok bound →
  Forall parseable reviews →
  by_date cmp date reviews = Ok (filter (in_bound cmp bound) reviews).
Proof.
  unfold date_bound, by_date. intros Hb Hp.
  destruct (truthy date) as [d|].
  - destruct (strptime d "%Y-%m-%d") as [t|]; [|done].
    simpl in *. injection Hb as <-.
    apply filter_result_Ok. intros r Hr.
    rewrite Forall_forall in Hp. destruct (Hp r Hr) as [t' Ht'].
    simpl. by rewrite Ht'.
  - injection Hb as <-. f_equal.
    induction reviews as [|r l IH]; [done|].
    apply Forall_cons in Hp as [_ Hp].
    by rewrite filter_cons_True, <- IH.
Qed.

Lemma at_location_spec location r :
  at_location location r ↔ ∀ l, truthy location = Some l → Location r = l.
Proof.
  unfold at_location. destruct (truthy location) as [l'|].
  - rewrite bool_decide_spec. split; [by intros -> l [= <-] | auto].
  - done.
Qed.

Lemma in_bound_spec cmp bound r t :
  strptime (Timestamp r) TIMESTAMP_FORMAT = Ok t →
  in_bound cmp bound r ↔ ∀ d, bound = Some d → cmp t d = true.
Proof.
  intros Ht. unfold in_bound. destruct bound as [d'|].
  - rewrite Ht, Is_true_true. split; [by intros ? d [= <-] | auto].
  - done.
Qed.

Lemma get_result_Ok location start_date end_date lo hi reviews :
  (∀ l, truthy location = Some l → l ∈ ALLOWED_LOCATIONS) →
  date_bound start_date = Ok lo →
  date_bound end_date = Ok hi →
  Forall parseable reviews →
  get_result location start_date end_date reviews
  = Ok (ok_response (filter (survives location lo hi) reviews)).
Proof.
  intros Hl Hlo Hhi Hp. unfold get_result.
  rewrite by_location_allowed by done.
  rewrite (by_date_Ok _ _ lo) by (by try apply Forall_filter). simpl.
  rewrite (by_date_Ok _ _ hi) by (by try do 2 apply Forall_filter). simpl.
  do 2 f_equal. rewrite !list_filter_filter.
  apply list_filter_iff. intros r. unfold survives.
  rewrite !andb_True. tauto.
Qed.

End filter_facts.

(** ** The read path *)

(** C3: a GET request that supplies none of location, start_date and
    end_date is answered with status 200 and a body that is the whole
    store: the JSON array has one object per review of the store, made of
    the four fields of the review and of the four scores that the scorer
    gives the body of that very review, and it is in descending order of
    the compound score. *)
Theorem get_without_criteria `{Externals} env o reviews qs :
  REQUEST_METHOD env = Some "GET" →
  QUERY_STRING env = Some qs →
  parse_qs qs !! "location" = None →
  parse_qs qs !! "start_date" = None →
  parse_qs qs !! "end_date" = None →
  ∃ items,
    call env o reviews
    = ({| status := "200 OK";
          body := json_dumps (Some 2)
                    (JArray
                       ((λ x,
                           JObject
                             [("ReviewId", JString (ReviewId (scored x)));
                              ("Location", JString (Location (scored x)));
                              ("Timestamp", JString (Timestamp (scored x)));
                              ("ReviewBody", JString (ReviewBody (scored x)));
                              ("sentiment",
                               JObject
                                 [("neg", JNumber (neg (scored_sentiment x)));
                                  ("neu", JNumber (neu (scored_sentiment x)));
                                  ("pos", JNumber (pos (scored_sentiment x)));
                                  ("compound",
                                   JNumber (compound (scored_sentiment x)))])])
                          <$> items)) |},
       reviews)
    ∧ items ≡ₚ (λ r, {| scored := r;
                        scored_sentiment := polarity_scores (ReviewBody r) |})
                 <$> reviews
    ∧ StronglySorted (λ x y, (compound (scored_sentiment y)
                              <= compound (scored_sentiment x))%Q) items.
Proof.
  intros Hm Hq Hl Hs He. exists (ranked reviews). split_and!.
  - rewrite (call_GET_params _ _ _ None None None); [done..|].
    by apply get_params_Ok with qs; try apply first_value_absent.
  - apply sorted_Permutation.
  - apply sorted_descending.
Qed.

Lemma get_without_criteria_witness :
  ∃ items,
    call (get_request "") sample_oracle sample_reviews
    = ({| status := "200 OK";
          body := json_dumps (Some 2)
                    (JArray
                       ((λ x,
                           JObject
                             [("ReviewId", JString (ReviewId (scored x)));
                              ("Location", JString (Location (scored x)));
                              ("Timestamp", JString (Timestamp (scored x)));
                              ("ReviewBody", JString (ReviewBody (scored x)));
                              ("sentiment",
                               JObject
                                 [("neg", JNumber (neg (scored_sentiment x)));
                                  ("neu", JNumber (neu (scored_sentiment x)));
                                  ("pos", JNumber (pos (scored_sentiment x)));
                                  ("compound",
                                   JNumber (compound (scored_sentiment x)))])])
                          <$> items)) |},
       sample_reviews)
    ∧ items ≡ₚ (λ r, {| scored := r;
                        scored_sentiment := polarity_scores (ReviewBody r) |})
                 <$> sample_reviews
    ∧ StronglySorted (λ x y, (compound (scored_sentiment y)
                              <= compound (scored_sentiment x))%Q) items.
Proof.
  apply (get_without_criteria (get_request "") sample_oracle sample_reviews "");
    reflexivity.
Defined.

(** C4: on a GET request whose location is absent or allowed and whose
    dates, when given, parse to the bounds [lo] and [hi], the answer is the
    200 response for exactly the reviews that pass all the criteria at once:
    a review passes the start bound iff its timestamp is [>=] the bound, the
    end bound iff its timestamp is [<=] the bound, and a timestamp equal to a
    bound passes it. *)
Theorem get_date_bounds `{Externals} env o reviews
    location start_date end_date lo hi :
  REQUEST_METHOD env = Some "GET" →
  get_params env = Ok (location, start_date, end_date) →
  (∀ l, truthy location = Some l → l ∈ ALLOWED_LOCATIONS) →
  date_bound start_date = Ok lo →
  date_bound end_date = Ok hi →
  Forall parseable reviews →
  call env o reviews
  = (ok_response (filter (survives location lo hi) reviews), reviews)
  ∧ (∀ r t,
       r ∈ reviews →
       strptime (Timestamp r) TIMESTAMP_FORMAT = Ok t →
       r ∈ filter (survives location lo hi) reviews ↔
         (∀ l, truthy location = Some l → Location r = l) ∧
         (∀ d, lo = Some d → datetime_ge t d = true) ∧
         (∀ d, hi = Some d → datetime_le t d = true))
  ∧ (∀ t, datetime_ge t t = true ∧ datetime_le t t = true).
Proof.
  intros Hm Hparams Hallowed Hlo Hhi Hp. split_and!.
  - rewrite (call_GET_params _ _ _ location start_date end_date) by done.
    by rewrite (get_result_Ok _ _ _ lo hi).
  - intros r t Hr Ht. rewrite list_elem_of_filter. unfold survives.
    rewrite !andb_True, at_location_spec, !(in_bound_spec _ _ _ t) by done.
    tauto.
  - intros t. unfold datetime_ge. by rewrite datetime_le_refl.
Qed.

Lemma get_date_bounds_witness :
  let location := Some "Denver, Colorado" in
  let lo := Some {| year := 2021; month := 1; day := 6;
                    hour := 0; minute := 0; second := 0 |} in
  let hi := Some {| year := 2021; month := 1; day := 8;
                    hour := 0; minute := 0; second := 0 |} in
  let env := get_request
    "location=Denver%2C+Colorado&start_date=2021-01-06&end_date=2021-01-08" in
  call env sample_oracle sample_reviews
  = (ok_response (filter (survives location lo hi) sample_reviews), sample_reviews)
  ∧ (∀ r t,
       r ∈ sample_reviews →
       strptime (Timestamp r) TIMESTAMP_FORMAT = Ok t →
       r ∈ filter (survives location lo hi) sample_reviews ↔
         (∀ l, truthy location = Some l → Location r = l) ∧
         (∀ d, lo = Some d → datetime_ge t d = true) ∧
         (∀ d, hi = Some d → datetime_le t d = true))
  ∧ (∀ t, datetime_ge t t = true ∧ datetime_le t t = true).
Proof.
  intros location lo hi env.
  apply (get_date_bounds env sample_oracle sample_reviews
           location (Some "2021-01-06") (Some "2021-01-08") lo hi);
    try (vm_compute; reflexivity).
  - intros l [= <-]. vm_compute. reflexivity.
  - repeat constructor; eexists; vm_compute; reflexivity.
Defined.

Lemma filter_result_sublist {A} (p : A → result bool) (l l' : list A) :
  filter_result p l = Ok l' → l' `sublist_of` l.
Proof.
  revert l'. induction l as [|x l IH]; intros l'; simpl.
  - intros [= <-]. constructor.
  - destruct (p x) as [b|]; [simpl|done].
    destruct (filter_result p l) as [kept|]; [simpl|done].
    intros [= <-]. destruct b; [apply sublist_skip | apply sublist_cons]; auto.
Qed.

Section get_facts.
Context `{Externals}.

Lemma by_date_sublist cmp date reviews kept :
  by_date cmp date reviews = Ok kept → kept `sublist_of` reviews.
Proof.
  unfold by_date. destruct (truthy date) as [d|]; [|by intros [= <-]].
  destruct (strptime d "%Y-%m-%d") as [t|]; [simpl|done].
  apply filter_result_sublist.
Qed.

Lemma by_location_cases location reviews :
  (∃ l, truthy location = Some l ∧ (l ∉ ALLOWED_LOCATIONS) ∧
        by_location location reviews
        = inl (error_response "400 Bad Request" (not_allowed l))) ∨
  (∃ kept, by_location location reviews = inr kept ∧ kept `sublist_of` reviews).
Proof.
  unfold by_location. destruct (truthy location) as [l|]; [|by eauto].
  case_bool_decide; [right|left; by eauto].
  eexists; split; [done|]. apply sublist_filter.
Qed.

(** A GET request changes nothing, and its 200 answers are the responses
    for a sub-list of the store. *)
Lemma get_result_200 location start_date end_date reviews resp :
  get_result location start_date end_date reviews = Ok resp →
  status resp = "200 OK" →
  ∃ kept, kept `sublist_of` reviews ∧ resp = ok_response kept.
Proof.
  unfold get_result.
  destruct (by_location_cases location reviews)
    as [(l & _ & _ & ->)|(l0 & -> & Hl0)]; [by intros [= <-]|].
  destruct (by_date datetime_ge _ _) as [l1|] eqn:H1; [simpl|done].
  destruct (by_date datetime_le _ _) as [l2|] eqn:H2; [simpl|done].
  intros [= <-] _. exists l2. split; [|done].
  apply by_date_sublist in H1, H2. by repeat (etrans; [eassumption|]).
Qed.

Lemma call_GET_unchanged env o reviews :
  REQUEST_METHOD env = Some "GET" → (call env o reviews).2 = reviews.
Proof.
  intros Hm. rewrite call_GET, do_GET_run by done.
  destruct (get_params env) as [[[location start_date] end_date]|]; simpl;
    [by destruct (get_result _ _ _ _) | done].
Qed.

Lemma call_GET_200 env o reviews resp reviews' :
  REQUEST_METHOD env = Some "GET" →
  call env o reviews = (resp, reviews') →
  status resp = "200 OK" →
  ∃ kept, kept `sublist_of` reviews ∧ resp = ok_response kept.
Proof.
  intros Hm. rewrite call_GET, do_GET_run by done.
  destruct (get_params env) as [[[location start_date] end_date]|]; simpl;
    [|by intros [= <- _]].
  destruct (get_result _ _ _ _) as [resp'|] eqn:Hr; [|by intros [= <- _]].
  intros [= <- _]. by apply get_result_200 with location start_date end_date.
Qed.
End get_facts.

(** C7: in the 200 answer to a GET request the final sort is stable: the
    reviews whose compound score is [c] come in the response in the order
    they had in the filtered sequence, whatever [c] is. *)
Theorem get_sort_is_stable `{Externals} env o reviews resp reviews' :
  REQUEST_METHOD env = Some "GET" →
  call env o reviews = (resp, reviews') →
  status resp = "200 OK" →
  ∃ filtered_reviews,
    filtered_reviews `sublist_of` reviews
    ∧ body resp
      = json_dumps (Some 2)
          (JArray (scored_json <$>
                     sorted compound_of true (updated_review <$> filtered_reviews)))
    ∧ ∀ c, with_key compound_of c
             (sorted compound_of true (updated_review <$> filtered_reviews))
           = with_key compound_of c (updated_review <$> filtered_reviews).
Proof.
  intros Hm Hcall Hst.
  destruct (call_GET_200 env o reviews resp reviews') as (kept & Hsub & ->);
    [done..|].
  exists kept. split_and!; [done..|].
  intros c. apply with_key_sorted.
Qed.

Lemma get_sort_is_stable_witness :
  (call (get_request "") sample_oracle sample_reviews).1
  = ok_response sample_reviews
  ∧ with_key compound_of (1 # 2)%Q (ranked sample_reviews)
    = [ updated_review
          {| ReviewId := "id-2"; Location := "Denver, Colorado";
             Timestamp := "2021-01-06 00:00:00"; ReviewBody := "good service" |};
        updated_review
          {| ReviewId := "id-3"; Location := "El Paso, Texas";
             Timestamp := "2021-01-07 08:30:00"; ReviewBody := "good food" |} ]
  ∧ ∃ filtered_reviews,
      filtered_reviews `sublist_of` sample_reviews
      ∧ body (call (get_request "") sample_oracle sample_reviews).1
        = json_dumps (Some 2)
            (JArray (scored_json <$>
                       sorted compound_of true (updated_review <$> filtered_reviews)))
      ∧ ∀ c, with_key compound_of c
               (sorted compound_of true (updated_review <$> filtered_reviews))
             = with_key compound_of c (updated_review <$> filtered_reviews).
Proof.
  split_and!; [vm_compute; reflexivity..|].
  apply (get_sort_is_stable (get_request "") sample_oracle sample_reviews
           _ sample_reviews);
    vm_compute; reflexivity.
Defined.

(** C1, as the code has it: a GET request with a start_date or end_date that
    is not empty and that [strptime] rejects, and with a location that is
    absent, empty or allowed, is answered with status 500 and the fixed body
    [{"error": "Internal server error."}]; the message of the parser does
    not reach the client. *)
Theorem get_malformed_date `{Externals} env o reviews
    location start_date end_date date ex :
  REQUEST_METHOD env = Some "GET" →
  get_params env = Ok (location, start_date, end_date) →
  (∀ l, truthy location = Some l → l ∈ ALLOWED_LOCATIONS) →
  truthy start_date = Some date ∨ truthy end_date = Some date →
  strptime date "%Y-%m-%d" = Raise ex →
  call env o reviews
  = (error_response "500 Internal Server Error" "Internal server error.", reviews).
Proof.
  intros Hm Hparams Hallowed Hdate Hex.
  rewrite (call_GET_params _ _ _ location start_date end_date) by done.
  unfold get_result. rewrite by_location_allowed by done.
  destruct Hdate as [Hs|He].
  - unfold by_date at 2. by rewrite Hs, Hex.
  - destruct (by_date datetime_ge _ _) as [l1|]; [simpl|done].
    unfold by_date. by rewrite He, Hex.
Qed.

Lemma get_malformed_date_witness :
  call (get_request "end_date=2021-13-01") sample_oracle sample_reviews
  = (error_response "500 Internal Server Error" "Internal server error.",
     sample_reviews).
Proof.
  apply (get_malformed_date (get_request "end_date=2021-13-01") sample_oracle
           sample_reviews None None (Some "2021-13-01") "2021-13-01"
           (no_match "2021-13-01" "%Y-%m-%d"));
    try (vm_compute; reflexivity).
  - intros l [=].
  - right. vm_compute. reflexivity.
Defined.

(** The request [GET ?start_date=abc]: the date is not a date, the answer is
    the generic 500 and not a 400 that names the date. *)
Lemma get_malformed_date_is_500 :
  get_params (get_request "start_date=abc") = Ok (None, Some "abc", None)
  ∧ strptime "abc" "%Y-%m-%d"
    = Raise (ValueError "time data 'abc' does not match format '%Y-%m-%d'")
  ∧ call (get_request "start_date=abc") sample_oracle sample_reviews
    = (error_response "500 Internal Server Error" "Internal server error.",
       sample_reviews)
  ∧ status (call (get_request "start_date=abc") sample_oracle sample_reviews).1
    ≠ "400 Bad Request".
Proof. split_and!; [vm_compute; reflexivity..|]. vm_compute. discriminate. Qed.

(** C5, as the code has it: a GET request whose location is a non-empty
    string outside the allow-list is answered with status 400 and the body
    [{"error": "'<value>' is not an allowed location."}]. *)
Theorem get_disallowed_location `{Externals} env o reviews
    location start_date end_date :
  REQUEST_METHOD env = Some "GET" →
  get_params env = Ok (Some location, start_date, end_date) →
  location ≠ "" →
  location ∉ ALLOWED_LOCATIONS →
  call env o reviews
  = ({| status := "400 Bad Request";
        body := json_dumps None
                  (JObject [("error",
                             JString ("'" ++ location
                                      ++ "' is not an allowed location."))]) |},
     reviews).
Proof.
  intros Hm Hparams Hne Hnot.
  rewrite (call_GET_params _ _ _ (Some location) start_date end_date) by done.
  unfold get_result, by_location. simpl.
  apply String.eqb_neq in Hne. rewrite Hne.
  by rewrite bool_decide_false.
Qed.

Lemma get_disallowed_location_witness :
  call (get_request "location=Nowhere, Nowhere") sample_oracle sample_reviews
  = ({| status := "400 Bad Request";
        body := json_dumps None
                  (JObject [("error",
                             JString "'Nowhere, Nowhere' is not an allowed location.")]) |},
     sample_reviews).
Proof.
  apply (get_disallowed_location (get_request "location=Nowhere, Nowhere")
           sample_oracle sample_reviews "Nowhere, Nowhere" None None);
    [reflexivity | vm_compute; reflexivity | discriminate |].
  vm_compute. discriminate.
Defined.

(** The request [GET ?location=]: the location parameter is there, its
    value is not in the allow-list, and the answer is the 200 for the whole
    store. *)
Lemma get_empty_location_is_200 :
  ("" ∉ ALLOWED_LOCATIONS)
  ∧ call (get_request "location=") sample_oracle sample_reviews
    = (ok_response sample_reviews, sample_reviews)
  ∧ status (call (get_request "location=") sample_oracle sample_reviews).1
    ≠ "400 Bad Request".
Proof.
  split_and!.
  - vm_compute. discriminate.
  - vm_compute. reflexivity.
  - vm_compute. discriminate.
Qed.

Lemma get_result_truthy `{Externals} location start_date end_date reviews :
  get_result location start_date end_date reviews
  = get_result (truthy location) (truthy start_date) (truthy end_date) reviews.
Proof.
  assert (∀ v, truthy (truthy v) = truthy v) as Hidem.
  { intros [s|]; [simpl|done]. by destruct (String.eqb s "") eqn:Hs; simpl; rewrite ?Hs. }
  unfold get_result, by_location, by_date. by rewrite !Hidem.
Qed.

(** C10: a GET request answers as the request without the parameter does
    when location, start_date or end_date is given with an empty value.
    Two GET requests whose three parameters agree once an empty value is
    read as a missing one get the same response on the same store: the
    empty location raises no error although it is not in the allow-list,
    and an empty date is not parsed and filters nothing. *)
Theorem empty_criterion_is_absent `{Externals} env1 env2 o reviews qs1 qs2 :
  REQUEST_METHOD env1 = Some "GET" →
  REQUEST_METHOD env2 = Some "GET" →
  QUERY_STRING env1 = Some qs1 →
  QUERY_STRING env2 = Some qs2 →
  (∀ key, key ∈ ["location"; "start_date"; "end_date"] →
          criterion qs1 key = criterion qs2 key) →
  call env1 o reviews = call env2 o reviews.
Proof.
  intros Hm1 Hm2 Hq1 Hq2 Hc.
  pose proof (Hc "location" ltac:(set_solver)) as Hl.
  pose proof (Hc "start_date" ltac:(set_solver)) as Hs.
  pose proof (Hc "end_date" ltac:(set_solver)) as He.
  rewrite !call_GET, !do_GET_run by done.
  unfold get_params, criterion in *. rewrite Hq1, Hq2. simpl.
  destruct (first_value (parse_qs qs1) "location") as [l1|],
           (first_value (parse_qs qs2) "location") as [l2|]; try done.
  destruct (first_value (parse_qs qs1) "start_date") as [s1|],
           (first_value (parse_qs qs2) "start_date") as [s2|]; try done.
  destruct (first_value (parse_qs qs1) "end_date") as [e1|],
           (first_value (parse_qs qs2) "end_date") as [e2|]; try done.
  simpl in *. injection Hl as Hl. injection Hs as Hs. injection He as He.
  rewrite (get_result_truthy l1), (get_result_truthy l2). by rewrite Hl, Hs, He.
Qed.

Lemma empty_criterion_is_absent_witness :
  call (get_request "location=&start_date=&end_date=") sample_oracle sample_reviews
  = call (get_request "") sample_oracle sample_reviews.
Proof.
  apply (empty_criterion_is_absent
           (get_request "location=&start_date=&end_date=") (get_request "")
           sample_oracle sample_reviews "location=&start_date=&end_date=" "");
    [reflexivity..|].
  (* both query strings parse to the empty dict *)
  intros key _. reflexivity.
Defined.

(** ** The write path *)

Section post_facts.
Context `{Externals}.

Lemma create_review_run env o reviews :
  create_review env o reviews =
    match post_params env with
    | Ok (location, review_body) =>
        match truthy location, truthy review_body with
        | Some location, Some review_body =>
            if bool_decide (location ∈ ALLOWED_LOCATIONS)
            then (Ok (created (new_review_of o location review_body)),
                  (reviews ++ [new_review_of o location review_body])%list)
            else (Ok (error_response "400 Bad Request" (not_allowed location)),
                  reviews)
        | _, _ =>
            (Ok (error_response "400 Bad Request"
                   "Both 'Location' and 'ReviewBody' are required."), reviews)
        end
    | Raise ex => (Raise ex, reviews)
    end.
Proof.
  unfold create_review, post_params, mbind, M_bind, result_bind, lift, append,
    mret, M_ret.
  destruct (content_length env) as [n|]; [|done].
  destruct (environ_item _ _) as [stream|]; [|done].
  destruct (read _ _) as [bytes|]; [|done].
  destruct (decode _ _) as [body|]; [|done].
  destruct (first_value _ "Location") as [location|]; [|done].
  destruct (first_value _ "ReviewBody") as [review_body|]; [|done].
  destruct (truthy location) as [l|]; [|done].
  destruct (truthy review_body) as [b|]; [|done].
  by case_bool_decide.
Qed.

Lemma call_POST_201 env o reviews resp reviews' :
  REQUEST_METHOD env = Some "POST" →
  call env o reviews = (resp, reviews') →
  status resp = "201 Created" →
  ∃ new_review,
    resp = created new_review ∧ reviews' = (reviews ++ [new_review])%list.
Proof.
  intros Hm. rewrite call_POST by done.
  destruct (create_review_cases env o reviews)
    as [[ex ->]|[[msg ->]|[new_review ->]]]; intros [= <- <-]; [done..|].
  by eauto.
Qed.

Lemma call_other_method env o reviews method :
  REQUEST_METHOD env = Some method →
  method ≠ "GET" → method ≠ "POST" →
  call env o reviews
  = (error_response "405 Method Not Allowed" "Method not allowed.", reviews).
Proof.
  intros Hm Hg Hp. unfold call, try_except, mbind, M_bind, lift.
  rewrite Hm. simpl.
  apply String.eqb_neq in Hg, Hp. by rewrite Hg, Hp.
Qed.

Lemma call_no_method env o reviews :
  REQUEST_METHOD env = None →
  call env o reviews = (internal_server_error, reviews).
Proof.
  intros Hm. unfold call, try_except, mbind, M_bind, lift. by rewrite Hm.
Qed.

Lemma review_json_fields r k :
  k ∈ ["ReviewId"; "Location"; "ReviewBody"; "Timestamp"] →
  json_field k (scored_json (updated_review r)) = json_field k (review_json r).
Proof.
  rewrite !elem_of_cons, elem_of_nil. by intros [->|[->|[->|[->|[]]]]].
Qed.
End post_facts.

Lemma empty_not_allowed : "" ∉ ALLOWED_LOCATIONS.
Proof. vm_compute. discriminate. Qed.




(** C2, as the code has it: a POST request is answered with 201 or 400 and
    never with 500.  An exception raised while the body is read or the
    record is made and stored is caught by the POST branch itself: the
    answer is 400 with the body [{"error": str(ex)}], the message of the
    exception ([{"error": "Invalid JSON format."}] for a JSON decoding
    error). *)
Theorem post_failure_is_400 `{Externals} env o reviews :
  REQUEST_METHOD env = Some "POST" →
  (status (call env o reviews).1 = "201 Created"
   ∨ status (call env o reviews).1 = "400 Bad Request")
  ∧ ∀ ex reviews',
      create_review env o reviews = (Raise ex, reviews') →
      call env o reviews
      = ({| status := "400 Bad Request";
            body := json_dumps None
                      (JObject [("error",
                                 JString match ex with
                                         | JSONDecodeError _ => "Invalid JSON format."
                                         | _ => str ex
                                         end)]) |},
         reviews').
Proof.
  intros Hm. rewrite call_POST by done. split.
  - destruct (create_review_cases env o reviews)
      as [[ex ->]|[[msg ->]|[new_review ->]]]; simpl; auto.
  - by intros ex reviews' ->.
Qed.

Lemma post_failure_is_400_witness :
  call (post_request "abc" "Location=Denver, Colorado&ReviewBody=Great service!")
    sample_oracle sample_reviews
  = ({| status := "400 Bad Request";
        body := json_dumps None
                  (JObject [("error",
                             JString "invalid literal for int() with base 10: 'abc'")]) |},
     sample_reviews).
Proof.
  apply (proj2 (post_failure_is_400
                  (post_request "abc"
                     "Location=Denver, Colorado&ReviewBody=Great service!")
                  sample_oracle sample_reviews eq_refl)
           (ValueError "invalid literal for int() with base 10: 'abc'")).
  vm_compute. reflexivity.
Defined.

(** The request [POST] with the header [Content-Length: 1.5]: [int] raises,
    and the answer is a 400 that carries the message of the exception, not
    the generic 500. *)
Lemma post_failure_is_not_500 :
  create_review (post_request "1.5" "Location=Denver, Colorado&ReviewBody=ok")
    sample_oracle sample_reviews
  = (Raise (ValueError "invalid literal for int() with base 10: '1.5'"),
     sample_reviews)
  ∧ call (post_request "1.5" "Location=Denver, Colorado&ReviewBody=ok")
      sample_oracle sample_reviews
    = (error_response "400 Bad Request"
         "invalid literal for int() with base 10: '1.5'", sample_reviews)
  ∧ call (post_request "1.5" "Location=Denver, Colorado&ReviewBody=ok")
      sample_oracle sample_reviews
    ≠ (error_response "500 Internal Server Error" "Internal server error.",
       sample_reviews).
Proof. split_and!; [vm_compute; reflexivity..|]. vm_compute. discriminate. Qed.

(** ** Writing, then reading *)

(** C8: after a POST request answered with 201, a GET request without
    criteria on the store the POST left is answered with 200 and a result
    that contains the created review, with the ReviewId, Location,
    ReviewBody and Timestamp of the POST response. *)
Theorem post_then_get_round_trip `{Externals}
    env o reviews resp reviews' env' o' qs :
  REQUEST_METHOD env = Some "POST" →
  call env o reviews = (resp, reviews') →
  status resp = "201 Created" →
  REQUEST_METHOD env' = Some "GET" →
  QUERY_STRING env' = Some qs →
  parse_qs qs !! "location" = None →
  parse_qs qs !! "start_date" = None →
  parse_qs qs !! "end_date" = None →
  ∃ new_review x,
    body resp = json_dumps (Some 2) (review_json new_review)
    ∧ call env' o' reviews'
      = ({| status := "200 OK";
            body := json_dumps (Some 2) (JArray (scored_json <$> ranked reviews')) |},
         reviews')
    ∧ x ∈ ranked reviews'
    ∧ scored x = new_review
    ∧ ∀ k, k ∈ ["ReviewId"; "Location"; "ReviewBody"; "Timestamp"] →
           json_field k (scored_json x) = json_field k (review_json new_review).
Proof.
  intros Hm Hcall Hst Hm' Hq Hl Hs He.
  destruct (call_POST_201 env o reviews resp reviews')
    as (new_review & -> & ->); [done..|].
  exists new_review, (updated_review new_review). split_and!.
  - done.
  - rewrite (call_GET_params _ _ _ None None None); [done..|].
    by apply get_params_Ok with qs; try apply first_value_absent.
  - unfold ranked. rewrite sorted_Permutation.
    apply list_elem_of_fmap_2, elem_of_app. right. by left.
  - done.
  - intros k. apply review_json_fields.
Qed.

Lemma post_then_get_round_trip_witness :
  let post :=
    post_request "51" "Location=Denver, Colorado&ReviewBody=Great service!" in
  let resp := (call post sample_oracle sample_reviews).1 in
  let reviews' := (call post sample_oracle sample_reviews).2 in
  ∃ new_review x,
    body resp = json_dumps (Some 2) (review_json new_review)
    ∧ call (get_request "") sample_oracle reviews'
      = ({| status := "200 OK";
            body := json_dumps (Some 2) (JArray (scored_json <$> ranked reviews')) |},
         reviews')
    ∧ x ∈ ranked reviews'
    ∧ scored x = new_review
    ∧ ∀ k, k ∈ ["ReviewId"; "Location"; "ReviewBody"; "Timestamp"] →
           json_field k (scored_json x) = json_field k (review_json new_review).
Proof.
  intros post resp reviews'.
  apply (post_then_get_round_trip post sample_oracle sample_reviews
           resp reviews' (get_request "") sample_oracle "");
    vm_compute; reflexivity.
Defined.

(** ** Validation failures and the store *)

(** C9: a request that is answered with status 400 leaves the store as it
    was; the checks come before the only update, the append of the POST
    branch. *)
Theorem bad_request_keeps_store `{Externals} env o reviews :
  status (call env o reviews).1 = "400 Bad Request" →
  (call env o reviews).2 = reviews.
Proof.
  destruct (REQUEST_METHOD env) as [method|] eqn:Hm;
    [|by rewrite call_no_method].
  destruct (decide (method = "GET")) as [->|Hget];
    [intros _; by apply call_GET_unchanged|].
  destruct (decide (method = "POST")) as [->|Hpost];
    [|by rewrite (call_other_method _ _ _ method)].
  rewrite call_POST by done.
  by destruct (create_review_cases env o reviews)
    as [[ex ->]|[[msg ->]|[new_review ->]]].
Qed.

Lemma bad_request_keeps_store_witness :
  (call (post_request "0" "") sample_oracle sample_reviews).2 = sample_reviews.
Proof.
  apply (bad_request_keeps_store (post_request "0" "") sample_oracle
           sample_reviews).
  vm_compute. reflexivity.
Defined.

(** * Further properties of the handler *)

(** ** One request *)

Lemma truthy_Some v s : truthy v = Some s → v = Some s ∧ s ≠ "".
Proof.
  destruct v as [s'|]; [simpl|done].
  destruct (String.eqb s' "") eqn:Hs; [done|].
  intros [= <-]. by apply String.eqb_neq in Hs.
Qed.

Lemma truthy_nonempty s : s ≠ "" → truthy (Some s) = Some s.
Proof. intros Hs. simpl. apply String.eqb_neq in Hs. by rewrite Hs. Qed.

Section outcome_facts.
Context `{Externals}.

Lemma get_result_status location start_date end_date reviews resp :
  get_result location start_date end_date reviews = Ok resp →
  status resp = "200 OK" ∨ status resp = "400 Bad Request".
Proof.
  unfold get_result.
  destruct (by_location_cases location reviews)
    as [(l & _ & _ & ->)|(l0 & -> & _)]; [intros [= <-]; by right|].
  destruct (by_date datetime_ge _ _) as [l1|]; [simpl|done].
  destruct (by_date datetime_le _ _) as [l2|]; [simpl|done].
  intros [= <-]. by left.
Qed.

Lemma call_GET_status env o reviews :
  REQUEST_METHOD env = Some "GET" →
  status (call env o reviews).1 ≠ "201 Created".
Proof.
  intros Hm. rewrite call_GET, do_GET_run by done.
  destruct (get_params env) as [[[location start_date] end_date]|]; [simpl|done].
  destruct (get_result _ _ _ _) as [resp|] eqn:Hr; [simpl|done].
  by destruct (get_result_status _ _ _ _ _ Hr) as [-> | ->].
Qed.

(** A request either leaves the store alone and does not answer 201, or it
    is a POST that appends the record it answers with. *)
Lemma call_outcome env o reviews :
  (status (call env o reviews).1 ≠ "201 Created"
   ∧ (call env o reviews).2 = reviews)
  ∨ (∃ location review_body,
        REQUEST_METHOD env = Some "POST"
        ∧ location ∈ ALLOWED_LOCATIONS
        ∧ review_body ≠ ""
        ∧ call env o reviews
          = (created (new_review_of o location review_body),
             (reviews ++ [new_review_of o location review_body])%list)).
Proof.
  destruct (REQUEST_METHOD env) as [method|] eqn:Hm;
    [|left; by rewrite call_no_method].
  destruct (decide (method = "GET")) as [->|Hget].
  { left. split; [by apply call_GET_status | by apply call_GET_unchanged]. }
  destruct (decide (method = "POST")) as [->|Hpost];
    [|left; by rewrite (call_other_method _ _ _ method)].
  rewrite call_POST, create_review_run by done.
  destruct (post_params env) as [[location review_body]|ex]; [|by left].
  destruct (truthy location) as [l|] eqn:Hl; [|by left].
  destruct (truthy review_body) as [b|] eqn:Hb; [|by left].
  case_bool_decide; [right|by left].
  apply truthy_Some in Hb as [_ Hb]. by eauto 8.
Qed.
End outcome_facts.

(** X1: a request whose method is not exactly [GET] or [POST] (the test is
    case sensitive) is answered with status 405 and the body
    [{"error": "Method not allowed."}]; the store is not touched and nothing
    of the request is read. *)
Theorem other_method_is_405 `{Externals} env o reviews method :
  REQUEST_METHOD env = Some method →
  method ≠ "GET" →
  method ≠ "POST" →
  call env o reviews
  = ({| status := "405 Method Not Allowed";
        body := json_dumps None (JObject [("error", JString "Method not allowed.")]) |},
     reviews).
Proof. intros Hm Hget Hpost. by rewrite (call_other_method _ _ _ method). Qed.

Lemma other_method_is_405_witness :
  call {| REQUEST_METHOD := Some "get"; QUERY_STRING := None;
          CONTENT_LENGTH := None; wsgi_input := None |}
    sample_oracle sample_reviews
  = ({| status := "405 Method Not Allowed";
        body := json_dumps None (JObject [("error", JString "Method not allowed.")]) |},
     sample_reviews).
Proof.
  apply (other_method_is_405
           {| REQUEST_METHOD := Some "get"; QUERY_STRING := None;
              CONTENT_LENGTH := None; wsgi_input := None |}
           sample_oracle sample_reviews "get");
    [reflexivity | discriminate | discriminate].
Defined.

(** X2: an [environ] without [REQUEST_METHOD], and a GET request without
    [QUERY_STRING], raise a [KeyError] that only the outer handler catches:
    the answer is the generic 500 and the store is unchanged. *)
Theorem missing_key_is_500 `{Externals} env o reviews :
  REQUEST_METHOD env = None
  ∨ (REQUEST_METHOD env = Some "GET" ∧ QUERY_STRING env = None) →
  call env o reviews
  = ({| status := "500 Internal Server Error";
        body := json_dumps None (JObject [("error", JString "Internal server error.")]) |},
     reviews).
Proof.
  intros [Hm|[Hm Hq]]; [by rewrite call_no_method|].
  rewrite call_GET, do_GET_run by done. unfold get_params. by rewrite Hq.
Qed.

Lemma missing_key_is_500_witness :
  call {| REQUEST_METHOD := Some "GET"; QUERY_STRING := None;
          CONTENT_LENGTH := None; wsgi_input := None |}
    sample_oracle sample_reviews
  = ({| status := "500 Internal Server Error";
        body := json_dumps None (JObject [("error", JString "Internal server error.")]) |},
     sample_reviews).
Proof.
  apply (missing_key_is_500
           {| REQUEST_METHOD := Some "GET"; QUERY_STRING := None;
              CONTENT_LENGTH := None; wsgi_input := None |}
           sample_oracle sample_reviews).
  right. split; reflexivity.
Defined.

(** X3: in a POST request the same kind of failure is caught by the POST
    branch: without [wsgi.input] (the content length being readable) the
    answer is 400 and its body carries the text of the [KeyError],
    [{"error": "'wsgi.input'"}]; the store is unchanged. *)
Theorem post_missing_input_is_400 `{Externals} env o reviews n :
  REQUEST_METHOD env = Some "POST" →
  content_length env = Ok n →
  wsgi_input env = None →
  call env o reviews
  = ({| status := "400 Bad Request";
        body := json_dumps None (JObject [("error", JString "'wsgi.input'")]) |},
     reviews).
Proof.
  intros Hm Hn Hin. rewrite call_POST, create_review_run by done.
  unfold post_params. by rewrite Hn, Hin.
Qed.

Lemma post_missing_input_is_400_witness :
  call {| REQUEST_METHOD := Some "POST"; QUERY_STRING := Some "";
          CONTENT_LENGTH := Some "12"; wsgi_input := None |}
    sample_oracle sample_reviews
  = ({| status := "400 Bad Request";
        body := json_dumps None (JObject [("error", JString "'wsgi.input'")]) |},
     sample_reviews).
Proof.
  apply (post_missing_input_is_400
           {| REQUEST_METHOD := Some "POST"; QUERY_STRING := Some "";
              CONTENT_LENGTH := Some "12"; wsgi_input := None |}
           sample_oracle sample_reviews 12);
    reflexivity.
Defined.





Lemma substring_app_l n s extra :
  (n ≤ String.length s)%nat →
  String.substring 0 n (s +:+ extra) = String.substring 0 n s.
Proof.
  revert n. induction s as [|c s IH]; intros n Hn.
  - destruct n; [|simpl in Hn; lia].
    change ("" +:+ extra) with extra. by destruct extra.
  - change (String c s +:+ extra) with (String c (s +:+ extra)).
    destruct n as [|n]; [done|]. simpl in *. f_equal. apply IH. lia.
Qed.

(** X6: a POST request that comes without [CONTENT_LENGTH] has zero bytes
    of its body read, whatever the client sent: with a decoder and a parser
    that map the empty input to the empty string and the empty dict, the
    answer is the 400 for missing fields and the store is unchanged. *)
Theorem post_without_content_length `{Externals} env o reviews stream :
  REQUEST_METHOD env = Some "POST" →
  CONTENT_LENGTH env = None →
  wsgi_input env = Some stream →
  decode "" "utf-8" = Ok "" →
  parse_qs "" = ∅ →
  call env o reviews
  = ({| status := "400 Bad Request";
        body := json_dumps None
                  (JObject [("error",
                             JString "Both 'Location' and 'ReviewBody' are required.")]) |},
     reviews).
Proof.
  intros Hm Hcl Hin Hdecode Hparse.
  rewrite call_POST, create_review_run by done.
  unfold post_params, content_length. rewrite Hcl, Hin. simpl.
  change (Z.to_nat 0) with 0%nat.
  replace (String.substring 0 0 stream) with "" by (by destruct stream).
  rewrite Hdecode. simpl. by rewrite Hparse.
Qed.

Lemma post_without_content_length_witness :
  call {| REQUEST_METHOD := Some "POST"; QUERY_STRING := Some "";
          CONTENT_LENGTH := None;
          wsgi_input := Some "Location=Denver, Colorado&ReviewBody=Great service!" |}
    sample_oracle sample_reviews
  = ({| status := "400 Bad Request";
        body := json_dumps None
                  (JObject [("error",
                             JString "Both 'Location' and 'ReviewBody' are required.")]) |},
     sample_reviews).
Proof.
  apply (post_without_content_length
           {| REQUEST_METHOD := Some "POST"; QUERY_STRING := Some "";
              CONTENT_LENGTH := None;
              wsgi_input := Some "Location=Denver, Colorado&ReviewBody=Great service!" |}
           sample_oracle sample_reviews
           "Location=Denver, Colorado&ReviewBody=Great service!");
    reflexivity.
Defined.

(** X7: a POST request is decided by the first [CONTENT_LENGTH] bytes of
    its body: bytes that follow them in the stream change neither the
    response nor the store. *)
Theorem post_ignores_trailing_bytes `{Externals} method qs cl body extra o reviews n :
  method = Some "POST" →
  content_length {| REQUEST_METHOD := method; QUERY_STRING := qs;
                    CONTENT_LENGTH := cl; wsgi_input := Some body |} = Ok n →
  (0 ≤ n ≤ Z.of_nat (String.length body))%Z →
  call {| REQUEST_METHOD := method; QUERY_STRING := qs;
          CONTENT_LENGTH := cl; wsgi_input := Some (body +:+ extra) |} o reviews
  = call {| REQUEST_METHOD := method; QUERY_STRING := qs;
            CONTENT_LENGTH := cl; wsgi_input := Some body |} o reviews.
Proof.
  intros -> Hn Hlen. rewrite !call_POST, !create_review_run by done.
  unfold post_params, content_length in *. simpl in *. rewrite Hn. simpl.
  unfold read. destruct (_ || _); [done|].
  destruct (n <? -1)%Z eqn:Hneg; [done|].
  destruct (n =? -1)%Z eqn:Hall; [apply Z.eqb_eq in Hall; lia|].
  by rewrite substring_app_l by lia.
Qed.

Lemma post_ignores_trailing_bytes_witness :
  call (post_request "36" "Location=Atlantis&ReviewBody=Too wet, and more")
    sample_oracle sample_reviews
  = call (post_request "36" "Location=Atlantis&ReviewBody=Too wet")
      sample_oracle sample_reviews.
Proof.
  apply (post_ignores_trailing_bytes (Some "POST") (Some "") (Some "36")
           "Location=Atlantis&ReviewBody=Too wet" ", and more"
           sample_oracle sample_reviews 36);
    [reflexivity | reflexivity | simpl; lia].
Defined.

(** X8: a GET request never changes the store, whatever its answer is
    (200, 400 or 500). *)
Theorem get_keeps_store `{Externals} env o reviews :
  REQUEST_METHOD env = Some "GET" →
  (call env o reviews).2 = reviews
  ∧ status (call env o reviews).1 ≠ "201 Created".
Proof.
  intros Hm. split; [by apply call_GET_unchanged | by apply call_GET_status].
Qed.

Lemma get_keeps_store_witness :
  (call (get_request "start_date=yesterday") sample_oracle sample_reviews).2
  = sample_reviews
  ∧ status (call (get_request "start_date=yesterday") sample_oracle sample_reviews).1
    ≠ "201 Created".
Proof.
  apply (get_keeps_store (get_request "start_date=yesterday")
           sample_oracle sample_reviews).
  reflexivity.
Defined.

(** X9: a GET request is answered with status 400 only for a location
    outside the allow-list: when the status is 400, the request has a
    non-empty location that is not allowed and the body is the message that
    names it. *)
Theorem get_400_is_location `{Externals} env o reviews :
  REQUEST_METHOD env = Some "GET" →
  status (call env o reviews).1 = "400 Bad Request" →
  ∃ location start_date end_date l,
    get_params env = Ok (location, start_date, end_date)
    ∧ truthy location = Some l
    ∧ (l ∉ ALLOWED_LOCATIONS)
    ∧ call env o reviews
      = (error_response "400 Bad Request"
           ("'" ++ l ++ "' is not an allowed location."), reviews).
Proof.
  intros Hm. rewrite call_GET, do_GET_run by done.
  destruct (get_params env) as [[[location start_date] end_date]|]; [simpl|done].
  unfold get_result.
  destruct (by_location_cases location reviews)
    as [(l & Hl & Hnot & ->)|(l0 & -> & _)].
  - intros _. by exists location, start_date, end_date, l.
  - destruct (by_date datetime_ge _ _) as [l1|]; [simpl|done].
    by destruct (by_date datetime_le _ _) as [l2|].
Qed.

Lemma get_400_is_location_witness :
  ∃ location start_date end_date l,
    get_params (get_request "location=Atlantis&end_date=never")
    = Ok (location, start_date, end_date)
    ∧ truthy location = Some l
    ∧ (l ∉ ALLOWED_LOCATIONS)
    ∧ call (get_request "location=Atlantis&end_date=never")
        sample_oracle sample_reviews
      = (error_response "400 Bad Request"
           ("'" ++ l ++ "' is not an allowed location."), sample_reviews).
Proof.
  apply (get_400_is_location (get_request "location=Atlantis&end_date=never")
           sample_oracle sample_reviews);
    vm_compute; reflexivity.
Defined.

(** ** Filters and ranking *)

Lemma datetime_le_before a b : datetime_le a b = true ↔ datetime_before a b.
Proof.
  unfold datetime_le, datetime_compare, datetime_before.
  repeat match goal with
         | |- context [(?x ?= ?y)%Z] => destruct (Z.compare_spec x y); simpl
         end;
    split; intros; first [done | lia].
Qed.

Lemma datetime_le_trans a b c :
  datetime_le a b = true → datetime_le b c = true → datetime_le a c = true.
Proof. rewrite !datetime_le_before. unfold datetime_before. lia. Qed.

Lemma filter_none {A} (P : A → Prop) `{!∀ x, Decision (P x)} (l : list A) :
  (∀ x, x ∈ l → ¬ P x) → filter P l = [].
Proof.
  induction l as [|x l IH]; intros Hl; [done|].
  rewrite filter_cons_False by (apply Hl; by left).
  apply IH. intros y Hy. apply Hl. by right.
Qed.

Section ranking_facts.
Context {A : Type} (key : A → Q).

Lemma insort_least x l :
  Forall (ascending key x) l → insort key x l = x :: l.
Proof.
  destruct l as [|y l]; [done|]. intros [Hy _]%Forall_cons. simpl.
  by rewrite (proj2 (Qlt_bool_ge (key y) (key x)) Hy).
Qed.

Lemma stable_sort_fixed l :
  StronglySorted (ascending key) l → stable_sort key l = l.
Proof.
  induction 1 as [|x l Hl IH Hx]; simpl; [done|].
  rewrite IH. by apply insort_least.
Qed.

Lemma reverse_descending l :
  StronglySorted (descending key) l → StronglySorted (ascending key) (reverse l).
Proof.
  induction 1 as [|x l Hl IH Hx]; [constructor|].
  rewrite reverse_cons. apply StronglySorted_app; split_and!.
  - intros y z Hy ->%list_elem_of_singleton.
    rewrite elem_of_reverse in Hy. rewrite Forall_forall in Hx.
    exact (Hx y Hy).
  - done.
  - repeat constructor.
Qed.
End ranking_facts.

(** X10: a GET request with an allowed location and no date (missing or
    empty) is answered with the 200 for the reviews of that location: a
    scored review is in the result exactly when it is the scoring of a
    stored review whose [Location] is the requested string.  No timestamp
    is parsed on this path. *)
Theorem get_by_location `{Externals} env o reviews location start_date end_date :
  REQUEST_METHOD env = Some "GET" →
  get_params env = Ok (Some location, start_date, end_date) →
  location ∈ ALLOWED_LOCATIONS →
  truthy start_date = None →
  truthy end_date = None →
  call env o reviews
  = (ok_response (filter (λ r, Location r = location) reviews), reviews)
  ∧ ∀ x, x ∈ ranked (filter (λ r, Location r = location) reviews) ↔
         ∃ r, x = updated_review r ∧ r ∈ reviews ∧ Location r = location.
Proof.
  intros Hm Hparams Hallowed Hs He. split.
  - rewrite (call_GET_params _ _ _ (Some location) start_date end_date) by done.
    unfold get_result, by_location, by_date.
    assert (location ≠ "") as Hne by (intros ->; by apply empty_not_allowed).
    rewrite truthy_nonempty by done.
    by rewrite bool_decide_true, Hs, He by done.
  - intros x. unfold ranked. rewrite sorted_Permutation, list_elem_of_fmap.
    setoid_rewrite list_elem_of_filter.
    split; intros (r & Hx & Hr); exists r; tauto.
Qed.

Lemma get_by_location_witness :
  call (get_request "location=El+Paso%2C+Texas&start_date=")
    sample_oracle sample_reviews
  = (ok_response (filter (λ r, Location r = "El Paso, Texas") sample_reviews),
     sample_reviews)
  ∧ ∀ x, x ∈ ranked (filter (λ r, Location r = "El Paso, Texas") sample_reviews) ↔
         ∃ r, x = updated_review r ∧ r ∈ sample_reviews
              ∧ Location r = "El Paso, Texas".
Proof.
  apply (get_by_location (get_request "location=El+Paso%2C+Texas&start_date=")
           sample_oracle sample_reviews "El Paso, Texas" None None);
    vm_compute; reflexivity.
Defined.

(** X11: a GET request whose start date is later than its end date is not
    an error: with a location that is absent or allowed and stored
    timestamps that parse, the answer is 200 with the empty list. *)
Theorem get_inverted_range `{Externals} env o reviews
    location start_date end_date lo hi :
  REQUEST_METHOD env = Some "GET" →
  get_params env = Ok (location, start_date, end_date) →
  (∀ l, truthy location = Some l → l ∈ ALLOWED_LOCATIONS) →
  date_bound start_date = Ok (Some lo) →
  date_bound end_date = Ok (Some hi) →
  datetime_le lo hi = false →
  Forall parseable reviews →
  call env o reviews
  = ({| status := "200 OK"; body := json_dumps (Some 2) (JArray []) |}, reviews).
Proof.
  intros Hm Hparams Hallowed Hlo Hhi Hinv Hp.
  rewrite (call_GET_params _ _ _ location start_date end_date) by done.
  rewrite (get_result_Ok _ _ _ (Some lo) (Some hi)) by done.
  rewrite filter_none; [done|].
  intros r Hr. unfold survives. rewrite !andb_True. intros [[_ Hge] Hle].
  rewrite Forall_forall in Hp. destruct (Hp r Hr) as [t Ht].
  pose proof (proj1 (in_bound_spec datetime_ge (Some lo) r t Ht) Hge lo eq_refl)
    as Hlo_t.
  pose proof (proj1 (in_bound_spec datetime_le (Some hi) r t Ht) Hle hi eq_refl)
    as Ht_hi.
  unfold datetime_ge in Hlo_t.
  by rewrite (datetime_le_trans lo t hi) in Hinv.
Qed.

Lemma get_inverted_range_witness :
  call (get_request "start_date=2021-01-08&end_date=2021-01-05")
    sample_oracle sample_reviews
  = ({| status := "200 OK"; body := json_dumps (Some 2) (JArray []) |},
     sample_reviews).
Proof.
  apply (get_inverted_range
           (get_request "start_date=2021-01-08&end_date=2021-01-05")
           sample_oracle sample_reviews
           None (Some "2021-01-08") (Some "2021-01-05")
           {| year := 2021; month := 1; day := 8;
              hour := 0; minute := 0; second := 0 |}
           {| year := 2021; month := 1; day := 5;
              hour := 0; minute := 0; second := 0 |});
    try (vm_compute; reflexivity).
  - intros l [=].
  - repeat constructor; eexists; vm_compute; reflexivity.
Defined.

(** X12: every 200 answer to a GET request, filtered or not, lists scored
    reviews in descending order of the compound score; each of them is a
    review of the store with the sentiment of its own body, and there are
    no more of them than reviews in the store. *)
Theorem get_200_is_ranked `{Externals} env o reviews resp reviews' :
  REQUEST_METHOD env = Some "GET" →
  call env o reviews = (resp, reviews') →
  status resp = "200 OK" →
  ∃ items,
    body resp = json_dumps (Some 2) (JArray (scored_json <$> items))
    ∧ StronglySorted (descending compound_of) items
    ∧ (∀ x, x ∈ items →
            scored x ∈ reviews
            ∧ scored_sentiment x = polarity_scores (ReviewBody (scored x)))
    ∧ (length items ≤ length reviews)%nat.
Proof.
  intros Hm Hcall Hst.
  destruct (call_GET_200 env o reviews resp reviews') as (kept & Hsub & ->);
    [done..|].
  exists (ranked kept). split_and!.
  - done.
  - apply sorted_descending.
  - intros x. unfold ranked. rewrite sorted_Permutation, list_elem_of_fmap.
    intros (r & -> & Hr). split; [|done]. by apply elem_of_sublist with kept.
  - unfold ranked. rewrite sorted_Permutation, length_fmap.
    by apply sublist_length.
Qed.

Lemma get_200_is_ranked_witness :
  ∃ items,
    body (call (get_request "end_date=2021-01-07") sample_oracle sample_reviews).1
    = json_dumps (Some 2) (JArray (scored_json <$> items))
    ∧ StronglySorted (descending compound_of) items
    ∧ (∀ x, x ∈ items →
            scored x ∈ sample_reviews
            ∧ scored_sentiment x = polarity_scores (ReviewBody (scored x)))
    ∧ (length items ≤ length sample_reviews)%nat.
Proof.
  apply (get_200_is_ranked (get_request "end_date=2021-01-07")
           sample_oracle sample_reviews _ sample_reviews);
    vm_compute; reflexivity.
Defined.

(** X13: ranking twice is ranking once: [sorted] applied to its own result
    returns it unchanged, in either direction, and a list that is already
    in descending order of the key is returned as it is, ties included. *)
Theorem sorted_idempotent {A} (key : A → Q) (d : bool) (l : list A) :
  sorted key d (sorted key d l) = sorted key d l
  ∧ (StronglySorted (descending key) l → sorted key true l = l).
Proof.
  split.
  - destruct d; simpl.
    + rewrite reverse_involutive.
      by rewrite (stable_sort_fixed key (stable_sort key (reverse l)))
        by apply stable_sort_ascending.
    + apply stable_sort_fixed, stable_sort_ascending.
  - intros Hl. simpl.
    rewrite stable_sort_fixed by by apply reverse_descending.
    apply reverse_involutive.
Qed.

(** ** Requests in sequence *)

Section serve_facts.
Context `{Externals}.

Lemma serve_cons env o requests reviews :
  serve ((env, o) :: requests) reviews
  = ((call env o reviews).1 :: (serve requests (call env o reviews).2).1,
     (serve requests (call env o reviews).2).2).
Proof.
  simpl. destruct (call env o reviews) as [resp reviews']. simpl.
  by destruct (serve requests reviews').
Qed.

Lemma count_created_cons resp resps :
  count_created (resp :: resps)
  = if decide (status resp = "201 Created")
    then S (count_created resps) else count_created resps.
Proof. unfold count_created. rewrite filter_cons. by case_decide. Qed.
End serve_facts.

(** X14: the store is append-only.  Over any sequence of requests the
    store at the start is a prefix of the store at the end, the store grows
    by exactly one review for each 201 response and by nothing else, and
    every request gets one response. *)
Theorem serve_appends_only `{Externals} requests reviews :
  reviews `prefix_of` (serve requests reviews).2
  ∧ length (serve requests reviews).2
    = (length reviews + count_created (serve requests reviews).1)%nat
  ∧ length (serve requests reviews).1 = length requests.
Proof.
  revert reviews. induction requests as [|[env o] requests IH]; intros reviews.
  { simpl. split_and!; [done|unfold count_created; simpl; lia|done]. }
  rewrite serve_cons. simpl. rewrite count_created_cons.
  destruct (IH (call env o reviews).2) as (Hprefix & Hlength & Hresps).
  destruct (call_outcome env o reviews)
    as [[Hst Hsame]|(location & review_body & _ & _ & _ & Hcall)].
  - rewrite Hsame in *. case_decide; [congruence|]. by rewrite Hresps.
  - rewrite Hcall in *. simpl in *.
    rewrite length_app in Hlength. simpl in Hlength. split_and!.
    + etrans; [|exact Hprefix]. by apply prefix_app_r.
    + lia.
    + by rewrite Hresps.
Qed.

(** X15: the POST branch stores only reviews that passed its checks.  If
    every review of the store has a [Location] of the allow-list, a
    non-empty [ReviewBody] and a [Timestamp] of the shape
    [YYYY-MM-DD HH:MM:SS], the same holds after any sequence of requests
    served with a clock in the range of [datetime]. *)
Theorem serve_keeps_well_formed `{Externals} requests reviews :
  Forall well_formed reviews →
  Forall (λ request, valid_datetime (now request.2)) requests →
  Forall well_formed (serve requests reviews).2.
Proof.
  revert reviews. induction requests as [|[env o] requests IH];
    intros reviews Hwf Hclock; [done|].
  apply Forall_cons in Hclock as [_ Hclock].
  rewrite serve_cons. simpl. apply IH; [|done].
  destruct (call_outcome env o reviews)
    as [[_ ->]|(location & review_body & _ & Hl & Hb & ->)]; [done|].
  simpl. apply Forall_app. split; [done|].
  apply Forall_singleton. split_and!; [done..|]. apply strftime_format.
Qed.

Lemma serve_keeps_well_formed_witness :
  Forall well_formed
    (serve [(post_request "51" "Location=Denver, Colorado&ReviewBody=Great service!",
             sample_oracle);
            (post_request "36" "Location=Atlantis&ReviewBody=Too wet",
             sample_oracle);
            (get_request "", sample_oracle)]
       sample_reviews).2.
Proof.
  apply (serve_keeps_well_formed
           [(post_request "51" "Location=Denver, Colorado&ReviewBody=Great service!",
             sample_oracle);
            (post_request "36" "Location=Atlantis&ReviewBody=Too wet",
             sample_oracle);
            (get_request "", sample_oracle)]
           sample_reviews).
  - repeat constructor; try discriminate; vm_compute; reflexivity.
  - repeat constructor; simpl; lia.
Defined.

(** X16: identifiers stay unique over a sequence of requests.  If the
    identifiers of the store are pairwise distinct and the requests come
    with identifiers from [uuid4] that are pairwise distinct and not in the
    store, the identifiers of the store after the sequence are pairwise
    distinct; the handler itself never compares identifiers. *)
Theorem serve_keeps_ids_unique `{Externals} requests reviews :
  NoDup (ReviewId <$> reviews) →
  NoDup ((λ request, uuid4 request.2) <$> requests) →
  (∀ request, request ∈ requests → uuid4 request.2 ∉ ReviewId <$> reviews) →
  NoDup (ReviewId <$> (serve requests reviews).2).
Proof.
  revert reviews. induction requests as [|[env o] requests IH];
    intros reviews Hids Hdraws Hfresh; [done|].
  rewrite fmap_cons in Hdraws. apply NoDup_cons in Hdraws as [Ho Hdraws].
  rewrite serve_cons. simpl.
  assert (∀ request, request ∈ requests →
                     uuid4 request.2 ∉ ReviewId <$> reviews) as Hfresh'.
  { intros request Hr. apply Hfresh. by right. }
  destruct (call_outcome env o reviews)
    as [[_ ->]|(location & review_body & _ & _ & _ & ->)]; [by apply IH|].
  simpl. apply IH; [|done|].
  - rewrite fmap_app. apply NoDup_app. split_and!; [done| |apply NoDup_singleton].
    intros id Hid ->%list_elem_of_singleton.
    by apply (Hfresh (env, o)); [left|].
  - intros request Hr. rewrite fmap_app, elem_of_app.
    intros [Hin|Heq%list_elem_of_singleton]; [by apply (Hfresh' request)|].
    apply Ho. simpl in Heq |- *. rewrite <- Heq.
    by apply (list_elem_of_fmap_2 (λ request, uuid4 request.2)).
Qed.

Lemma serve_keeps_ids_unique_witness :
  NoDup (ReviewId <$>
           (serve [(post_request "51"
                      "Location=Denver, Colorado&ReviewBody=Great service!",
                    sample_oracle);
                   (post_request "51"
                      "Location=Denver, Colorado&ReviewBody=Great service!",
                    {| uuid4 := "7c2d1e0a-3b4f-4a5d-8e6f-9a0b1c2d3e4f";
                       now := now sample_oracle |})]
              sample_reviews).2).
Proof.
  apply (serve_keeps_ids_unique
           [(post_request "51"
               "Location=Denver, Colorado&ReviewBody=Great service!",
             sample_oracle);
            (post_request "51"
               "Location=Denver, Colorado&ReviewBody=Great service!",
             {| uuid4 := "7c2d1e0a-3b4f-4a5d-8e6f-9a0b1c2d3e4f";
                now := now sample_oracle |})]
           sample_reviews).
  - apply (bool_decide_unpack _). vm_compute. reflexivity.
  - apply (bool_decide_unpack _). vm_compute. reflexivity.
  - intros request Hr. rewrite !elem_of_cons, elem_of_nil in Hr.
    destruct Hr as [->|[->|[]]]; apply (bool_decide_unpack _);
      vm_compute; reflexivity.
Defined.

(** X17: when loading the data fails at start-up the store is empty and
    the service still answers: every GET request that gets a 200 gets the
    empty list, and the store stays empty. *)
Theorem failed_load_serves_nothing `{Externals} ex env o resp reviews' :
  REQUEST_METHOD env = Some "GET" →
  call env o (init (Raise ex)) = (resp, reviews') →
  status resp = "200 OK" →
  resp = {| status := "200 OK"; body := json_dumps (Some 2) (JArray []) |}
  ∧ reviews' = [].
Proof.
  intros Hm Hcall Hst.
  pose proof (call_GET_unchanged env o (init (Raise ex)) Hm) as Hsame.
  rewrite Hcall in Hsame. simpl in Hsame.
  destruct (call_GET_200 env o (init (Raise ex)) resp reviews')
    as (kept & Hsub & ->); [done..|].
  apply sublist_nil_r in Hsub as ->. by split.
Qed.

Lemma failed_load_serves_nothing_witness :
  (call (get_request "end_date=2021-01-07") sample_oracle
     (init (Raise (ValueError "No columns to parse from file")))).1
  = {| status := "200 OK"; body := json_dumps (Some 2) (JArray []) |}
  ∧ (call (get_request "end_date=2021-01-07") sample_oracle
       (init (Raise (ValueError "No columns to parse from file")))).2
    = [].
Proof.
  apply (failed_load_serves_nothing
           (ValueError "No columns to parse from file")
           (get_request "end_date=2021-01-07") sample_oracle);
    vm_compute; reflexivity.
Defined.

(** ** Timestamps written and read *)

Lemma digit_val_digit n : digit_val (digit n) = Some (n mod 10)%Z.
Proof.
  unfold digit_val. rewrite is_digit_digit. unfold digit.
  assert (0 ≤ n mod 10 < 10)%Z as Hn by (apply Z.mod_pos_bound; lia).
  rewrite nat_ascii_embedding by lia. f_equal. lia.
Qed.

Lemma digit_not_space n : is_space (digit n) = false.
Proof.
  unfold digit.
  assert (Z.to_nat (n mod 10) < 10)%nat as Hk
    by (pose proof (Z.mod_pos_bound n 10); lia).
  revert Hk. generalize (Z.to_nat (n mod 10)). intros k Hk.
  do 10 (destruct k as [|k]; [reflexivity|]). lia.
Qed.

(** A check of the numbers from [lo] to [hi], by computation. *)
Lemma range_by_computation (P : Z → bool) (lo hi n : Z) :
  forallb P (seqZ lo (hi - lo + 1)) = true → (lo ≤ n ≤ hi)%Z → P n = true.
Proof.
  rewrite forallb_forall. intros HP Hn. apply HP.
  apply list_elem_of_In, elem_of_seqZ. lia.
Qed.

Lemma four_digits_pad4 y rest :
  (0 ≤ y ≤ 9999)%Z → four_digits (pad4 y +:+ rest) = Some (y, rest).
Proof.
  intros Hy. unfold pad4, pad2. cbv [String.append]. unfold four_digits.
  rewrite !digit_val_digit. cbn [mbind option_bind]. do 2 f_equal.
  Z.div_mod_to_equations. lia.
Qed.

Lemma two_digits_pad2 (two : Z → Z → bool) one n rest :
  (0 ≤ n ≤ 99)%Z →
  two (n / 10)%Z (n mod 10)%Z = true →
  one_or_two_digits two one (pad2 n +:+ rest) = Some (n, rest).
Proof.
  intros Hn Htwo. unfold pad2. cbv [String.append]. unfold one_or_two_digits.
  rewrite !digit_val_digit. cbn [mbind option_bind].
  replace ((n / 10) mod 10)%Z with (n / 10)%Z by (Z.div_mod_to_equations; lia).
  rewrite Htwo. do 2 f_equal. Z.div_mod_to_equations. lia.
Qed.

Lemma day_field_digits c rest :
  is_digit c = true →
  day_field (String c rest)
  = one_or_two_digits
      (λ a b, (a =? 3) && (b <=? 1) || (1 <=? a) && (a <=? 2) || (a =? 0) && (1 <=? b))%Z
      (λ a, 1 <=? a)%Z (String c rest).
Proof.
  destruct c as [[] [] [] [] [] [] [] []]; try discriminate; intros _;
    by destruct rest.
Qed.

Lemma pad2_cons n : ∃ c s, pad2 n = String c s ∧ is_digit c = true.
Proof. unfold pad2. eexists _, _. split; [done|]. apply is_digit_digit. Qed.

Lemma spaces_before_digit n rest :
  spaces (" " +:+ pad2 n +:+ rest) = Some (pad2 n +:+ rest).
Proof.
  unfold pad2. cbv [String.append]. unfold spaces.
  change (is_space " ") with true. cbn [skip_spaces]. by rewrite digit_not_space.
Qed.

Lemma literal_app c rest : literal c (String c "" +:+ rest) = Some rest.
Proof.
  change (String c "" +:+ rest) with (String c rest).
  unfold literal. by rewrite Ascii.eqb_refl.
Qed.

Lemma month_field_pad2 n rest :
  (1 ≤ n ≤ 12)%Z → month_field (pad2 n +:+ rest) = Some (n, rest).
Proof.
  intros Hn. apply two_digits_pad2; [lia|].
  by apply (range_by_computation
              (λ n, (n / 10 =? 1) && (n mod 10 <=? 2)
                    || (n / 10 =? 0) && (1 <=? n mod 10))%Z 1 12).
Qed.

Lemma day_field_pad2 n rest :
  (1 ≤ n ≤ 31)%Z → day_field (pad2 n +:+ rest) = Some (n, rest).
Proof.
  intros Hn.
  change (pad2 n +:+ rest) with (String (digit (n / 10)) (String (digit n) rest)).
  rewrite day_field_digits by apply is_digit_digit.
  change (String (digit (n / 10)) (String (digit n) rest)) with (pad2 n +:+ rest).
  apply two_digits_pad2; [lia|].
  by apply (range_by_computation
              (λ n, (n / 10 =? 3) && (n mod 10 <=? 1)
                    || (1 <=? n / 10) && (n / 10 <=? 2)
                    || (n / 10 =? 0) && (1 <=? n mod 10))%Z 1 31).
Qed.

Lemma hour_field_pad2 n rest :
  (0 ≤ n ≤ 23)%Z → hour_field (pad2 n +:+ rest) = Some (n, rest).
Proof.
  intros Hn. apply two_digits_pad2; [lia|].
  by apply (range_by_computation
              (λ n, (n / 10 =? 2) && (n mod 10 <=? 3) || (n / 10 <=? 1))%Z 0 23).
Qed.

Lemma minute_field_pad2 n rest :
  (0 ≤ n ≤ 59)%Z → minute_field (pad2 n +:+ rest) = Some (n, rest).
Proof.
  intros Hn. apply two_digits_pad2; [lia|].
  by apply (range_by_computation (λ n, n / 10 <=? 5)%Z 0 59).
Qed.

Lemma second_field_pad2 n rest :
  (0 ≤ n ≤ 59)%Z → second_field (pad2 n +:+ rest) = Some (n, rest).
Proof.
  intros Hn. apply two_digits_pad2; [lia|].
  by apply (range_by_computation
              (λ n, (n / 10 =? 6) && (n mod 10 <=? 1) || (n / 10 <=? 5))%Z 0 59).
Qed.

Lemma make_datetime_Ok t :
  calendar_date t →
  make_datetime (year t) (month t) (day t) (hour t) (minute t) (second t) = Ok t.
Proof.
  intros [(Hy & Hm & Hd & Hh & Hmi & Hs) Hdays]. unfold make_datetime.
  rewrite (proj2 (Z.ltb_ge (year t) 1)) by lia.
  rewrite (proj2 (Z.ltb_ge _ (day t))) by lia.
  rewrite (proj2 (Z.ltb_ge 59 (second t))) by lia.
  by destruct t.
Qed.

Lemma ref_strptime_strftime t :
  calendar_date t → ref_strptime (strftime t) TIMESTAMP_FORMAT = Ok t.
Proof.
  intros Ht. pose proof Ht as [(Hy & Hm & Hd & Hh & Hmi & Hs) Hdays].
  unfold ref_strptime.
  change (String.eqb TIMESTAMP_FORMAT "%Y-%m-%d") with false.
  change (String.eqb TIMESTAMP_FORMAT TIMESTAMP_FORMAT) with true.
  cbv iota. unfold strftime.
  change (pad2 (second t)) with (pad2 (second t) +:+ "").
  rewrite four_digits_pad4 by lia. cbn [mbind option_bind].
  rewrite literal_app. cbn [mbind option_bind].
  rewrite month_field_pad2 by lia. cbn [mbind option_bind].
  rewrite literal_app. cbn [mbind option_bind].
  rewrite day_field_pad2 by lia. cbn [mbind option_bind].
  rewrite spaces_before_digit. cbn [mbind option_bind].
  rewrite hour_field_pad2 by lia. cbn [mbind option_bind].
  rewrite literal_app. cbn [mbind option_bind].
  rewrite minute_field_pad2 by lia. cbn [mbind option_bind].
  rewrite literal_app. cbn [mbind option_bind].
  rewrite second_field_pad2 by lia. cbn [mbind option_bind].
  unfold finish. change (String.eqb "" "") with true. cbv iota.
  by apply make_datetime_Ok.
Qed.

(** X18: the timestamp that the POST branch writes is read back by the
    parser of the date filters: with [strptime] as in CPython for
    [TIMESTAMP_FORMAT], parsing the [Timestamp] of a new record gives the
    clock value it was made from, to the second. *)
Theorem created_timestamp_round_trip o location review_body :
  calendar_date (now o) →
  strptime (Timestamp (new_review_of o location review_body)) TIMESTAMP_FORMAT
  = Ok (now o).
Proof. intros Ht. simpl. by apply ref_strptime_strftime. Qed.

Lemma created_timestamp_round_trip_witness :
  strptime (Timestamp (new_review_of sample_oracle "Denver, Colorado" "Great service!"))
    TIMESTAMP_FORMAT
  = Ok (now sample_oracle).
Proof.
  apply (created_timestamp_round_trip sample_oracle
           "Denver, Colorado" "Great service!").
  unfold calendar_date, valid_datetime. simpl. vm_compute. intuition discriminate.
Defined.


